(** * Shallow embedding of [self_dashboard.py] (Formula 1 Streamlit dashboard)

    The pandas data frame is modelled as a record holding the column-level
    facts the script inspects ([fastestLapSpeed] present or not) and the list
    of rows in index order.  Boolean masks [df[mask]] become [List.filter],
    which keeps the surviving rows unchanged and in order, as pandas does. *)

From Stdlib Require Import ZArith QArith Ascii String List Bool Lia.
From Stdlib Require Import Sorting.Permutation Sorting.Sorted Structures.OrderedTypeEx.
Import ListNotations.
Open Scope string_scope.

(** ** Data model *)

(** A cell of the raw [fastestLapSpeed] column as read from the CSV: a number,
    a piece of text (such as ["\N"]), or a missing value. *)
Inductive Cell : Type :=
| CNum (q : Q)
| CStr (s : string)
| CNA.

(** One row of [Cleaned_table_part_Two.csv].  Text columns on which the script
    calls [dropna] can hold NaN, modelled by [None]. *)
Record Row : Type := mkRow {
  year : Z;
  race_id : Z;
  race_name : string;
  country : option string;
  circuit_name : option string;
  driver_name : option string;
  constructor_name : option string;
  grid : Z;
  points : Q;
  positionOrder : Z;
  rank : Z;
  fastestLapSpeed : Cell
}.

(** A data frame: whether the [fastestLapSpeed] column exists, and its rows. *)
Record Table : Type := mkTable {
  has_fastestLapSpeed : bool;
  rows : list Row
}.

(** The CSV as read by [pd.read_csv]: whether it has a [rank] column.  When it
    has none, the [rank] field of its rows carries no information. *)
Record RawTable : Type := mkRawTable {
  raw_has_rank : bool;
  raw_table : Table
}.

Definition with_rows (t : Table) (rs : list Row) : Table :=
  mkTable (has_fastestLapSpeed t) rs.

(** [df['rank'] = df['positionOrder']] on one row. *)
Definition set_rank_from_position (r : Row) : Row :=
  mkRow (year r) (race_id r) (race_name r) (country r) (circuit_name r)
        (driver_name r) (constructor_name r) (grid r) (points r)
        (positionOrder r) (positionOrder r) (fastestLapSpeed r).

(** [load_data] (lines 13-18). *)
Definition load_data (raw : RawTable) : Table :=
  let df := raw_table raw in
  if raw_has_rank raw then df
  else with_rows df (map set_rank_from_position (rows df)).

(** ** Filter engine (lines 53-62) *)

Definition opt_str_eqb (o : option string) (s : string) : bool :=
  match o with Some x => String.eqb x s | None => false end.

(** [df["year"] >= year_min) & (df["year"] <= year_max)] *)
Definition year_mask (year_min year_max : Z) (r : Row) : bool :=
  (year_min <=? year r)%Z && (year r <=? year_max)%Z.

(** [filtered_df["country"] == selected_country]; NaN compares unequal. *)
Definition country_mask (selected_country : string) (r : Row) : bool :=
  opt_str_eqb (country r) selected_country.

(** [filtered_df["circuit_name"].isin(selected_circuits)]; NaN is in no list
    of strings. *)
Definition circuit_mask (selected_circuits : list string) (r : Row) : bool :=
  match circuit_name r with
  | Some c => existsb (String.eqb c) selected_circuits
  | None => false
  end.

(** Line 53. *)
Definition filter_year (year_min year_max : Z) (df : Table) : Table :=
  with_rows df (filter (year_mask year_min year_max) (rows df)).

(** Lines 55-56. *)
Definition filter_country (selected_country : string) (df : Table) : Table :=
  if negb (String.eqb selected_country "All Countries")
  then with_rows df (filter (country_mask selected_country) (rows df))
  else df.

(** Lines 58-62: [if "All Circuits" in selected_circuits: pass else ...]. *)
Definition filter_circuits (selected_circuits : list string) (df : Table) : Table :=
  if existsb (String.eqb "All Circuits") selected_circuits
  then df
  else with_rows df (filter (circuit_mask selected_circuits) (rows df)).

(** [filtered_df] as computed by lines 53-62. *)
Definition filtered_df (df : Table) (year_min year_max : Z)
    (selected_country : string) (selected_circuits : list string) : Table :=
  filter_circuits selected_circuits
    (filter_country selected_country (filter_year year_min year_max df)).

(** ** Order-preserving sub-lists *)

(** [Subseq l1 l2]: [l1] is obtained from [l2] by dropping elements, each kept
    element staying at its relative position (row identity, not equality). *)
Inductive Subseq {A : Type} : list A -> list A -> Prop :=
| Subseq_nil : Subseq [] []
| Subseq_skip x l1 l2 : Subseq l1 l2 -> Subseq l1 (x :: l2)
| Subseq_keep x l1 l2 : Subseq l1 l2 -> Subseq (x :: l1) (x :: l2).

(** ** pandas helpers *)

(** [df[...].iloc[idx]]: the rows at the given positions. *)
Definition take_rows {A : Type} (idx : list nat) (rs : list A) : list A :=
  flat_map (fun i => match nth_error rs i with Some r => [r] | None => [] end) idx.

(** [pandas.core.sorting.nargsort(items, kind, ascending, na_position="last")],
    the indexer behind [Series.sort_values] and single-column
    [DataFrame.sort_values].  [argsort] is numpy's [ndarray.argsort(kind=kind)]
    on the non-NaN values; NaN ([None]) positions are appended at the end. *)
(** [idx[~mask]] paired with [items[~mask]], positions counted from [s]. *)
Fixpoint non_nan_from (s : nat) (items : list (option Q)) : list (nat * Q) :=
  match items with
  | [] => []
  | Some q :: items' => (s, q) :: non_nan_from (S s) items'
  | None :: items' => non_nan_from (S s) items'
  end.

(** [np.nonzero(mask)[0]], positions counted from [s]. *)
Fixpoint nan_from (s : nat) (items : list (option Q)) : list nat :=
  match items with
  | [] => []
  | Some _ :: items' => nan_from (S s) items'
  | None :: items' => s :: nan_from (S s) items'
  end.

Definition nargsort (argsort : list Q -> list nat) (ascending : bool)
    (items : list (option Q)) : list nat :=
  let non_nan := non_nan_from 0 items in
  let nan_idx := nan_from 0 items in
  let non_nan' := if ascending then non_nan else rev non_nan in
  let indexer := map (fun k => fst (nth k non_nan' (0%nat, 0%Q)))
                     (argsort (map snd non_nan')) in
  (if ascending then indexer else rev indexer) ++ nan_idx.

(** [sort_values(key, ascending)] on a frame or series whose rows are [xs]. *)
Definition sort_values {A : Type} (argsort : list Q -> list nat)
    (key : A -> option Q) (ascending : bool) (xs : list A) : list A :=
  take_rows (nargsort argsort ascending (map key xs)) xs.

(** [.head(n)] *)
Definition head {A : Type} (n : nat) (xs : list A) : list A := firstn n xs.

(** Sorted distinct group keys, as [groupby(sort=True)] orders them. *)
Fixpoint insert_key_Z (x : Z) (l : list Z) : list Z :=
  match l with
  | [] => [x]
  | y :: l' => if (x <? y)%Z then x :: l
               else if (x =? y)%Z then l else y :: insert_key_Z x l'
  end.

Definition group_keys_Z (xs : list Z) : list Z := fold_right insert_key_Z [] xs.

Fixpoint insert_key_str (x : string) (l : list string) : list string :=
  match l with
  | [] => [x]
  | y :: l' => match String.compare x y with
               | Lt => x :: l
               | Eq => l
               | Gt => y :: insert_key_str x l'
               end
  end.

(** Keys of a text column, NaN dropped ([groupby(dropna=True)], [dropna()]). *)
Definition group_keys_str (xs : list (option string)) : list string :=
  fold_right (fun o acc => match o with Some x => insert_key_str x acc
                                     | None => acc end) [] xs.

(** [Series.nunique()] (NaN not counted). *)
Definition nunique_str (xs : list (option string)) : nat :=
  length (group_keys_str xs).

Definition nunique_Z (xs : list Z) : nat := length (group_keys_Z xs).

(** [Series.sum()].  Exact rational arithmetic: pandas adds float64 values
    with rounding, so only facts that do not depend on the rounded value are
    stated about sums. *)
Definition sumQ (xs : list Q) : Q := fold_right Qplus 0 xs.

(** [Series.mean()] with [skipna=True]; NaN for no value.  Exact rational
    arithmetic as for [sumQ]: whether the mean is NaN does not depend on the
    rounding, its value does. *)
Definition meanQ (xs : list (option Q)) : option Q :=
  let vs := flat_map (fun o => match o with Some q => [q] | None => [] end) xs in
  match vs with
  | [] => None
  | _ => Some (sumQ vs / inject_Z (Z.of_nat (length vs)))
  end.

(** [Series.min()] / [Series.max()] on the integer year column; NaN if empty. *)
Definition col_min (xs : list Z) : option Z :=
  match xs with [] => None | x :: xs' => Some (fold_left Z.min xs' x) end.

Definition col_max (xs : list Z) : option Z :=
  match xs with [] => None | x :: xs' => Some (fold_left Z.max xs' x) end.

(** [pd.to_numeric(col, errors='coerce')] on one cell: numbers stay, text is
    parsed by [to_float] (pandas' own string-to-number conversion), a value
    that does not parse becomes NaN. *)
Definition to_numeric (to_float : string -> option Q) (c : Cell) : option Q :=
  match c with
  | CNum q => Some q
  | CStr s => to_float s
  | CNA => None
  end.

(** [st.selectbox(label, options)]: the option the user picks, given by its
    position; with no options Streamlit returns [None]. *)
Definition selectbox {A : Type} (options : list A) (choice : nat) : option A :=
  nth_error options choice.

(** ** Sidebar (lines 22-50) *)

(** Lines 25-29: [sorted(df[col].unique())], after [dropna()] for the text
    columns.  Python orders text by code point, which on the UTF-8 bytes of
    a [string] is the byte order of [String.compare]. *)
Definition years (df : Table) : list Z := group_keys_Z (map year (rows df)).

Definition countries (df : Table) : list string :=
  group_keys_str (map country (rows df)).

Definition circuits (df : Table) : list string :=
  group_keys_str (map circuit_name (rows df)).

Definition drivers (df : Table) : list string :=
  group_keys_str (map driver_name (rows df)).

Definition constructors (df : Table) : list string :=
  group_keys_str (map constructor_name (rows df)).

(** Line 35: the slider's initial value [(df['year'].min(), df['year'].max())]. *)
Definition default_year_range (df : Table) : option Z * option Z :=
  (col_min (map year (rows df)), col_max (map year (rows df))).

(** Lines 41 and 48: the options of the country and circuit widgets. *)
Definition country_options (df : Table) : list string :=
  "All Countries" :: countries df.

Definition circuit_options (df : Table) : list string :=
  "All Circuits" :: circuits df.

(** ** Rendered output

    Each page is the list of Streamlit calls it makes, with the data handed
    to them.  Emoji in titles are left out; chart styling is not modelled. *)

Inductive Metric : Type :=
| MCount (n : nat)
| MYears (lo hi : option Z).

Inductive Widget : Type :=
| WTitle (s : string)
| WSubheader (s : string)
| WWarning (msg : string)
| WMetric (label : string) (v : Metric)
| WYearSeries (data : list (Z * option Q))
| WBarChart (data : list (string * Z))
| WRows (rs : list Row)
| WScatter (pts : list (Z * Z * option string))
| WSpeedRows (rs : list (Row * option Q))
| WStats (data : list (string * list (option Q)))
| WHistogram (values : list Q).

Definition QZ (z : Z) : Q := inject_Z z.
Definition Qnat (n : nat) : Q := inject_Z (Z.of_nat n).

Definition rows_of_year (y : Z) (rs : list Row) : list Row :=
  filter (fun r => (year r =? y)%Z) rs.

(** ** Overview (lines 72-87) *)

(** [filtered_df.groupby("year")["race_id"].nunique()] *)
Definition races_per_year (df : Table) : list (Z * nat) :=
  map (fun y => (y, nunique_Z (map race_id (rows_of_year y (rows df)))))
      (group_keys_Z (map year (rows df))).

(** [filtered_df[filtered_df['positionOrder'] == 1].groupby('constructor_name').size()] *)
Definition constructor_wins (df : Table) : list (string * Z) :=
  let wins := filter (fun r => (positionOrder r =? 1)%Z) (rows df) in
  map (fun k => (k, Z.of_nat (length (filter (fun r => opt_str_eqb (constructor_name r) k) wins))))
      (group_keys_str (map constructor_name wins)).

(** Line 86: [... .size().sort_values(ascending=False).head(10)]. *)
Definition top_constructors (argsort : list Q -> list nat) (df : Table) : list (string * Z) :=
  head 10 (sort_values argsort (fun p => Some (QZ (snd p))) false (constructor_wins df)).

Definition overview_page (argsort : list Q -> list nat) (filtered : Table) : list Widget :=
  let rs := rows filtered in
  [ WTitle "F1 Data Overview";
    WMetric "Data Rows" (MCount (length rs));
    WMetric "Years" (MYears (col_min (map year rs)) (col_max (map year rs)));
    WMetric "Drivers" (MCount (nunique_str (map driver_name rs)));
    WMetric "Constructors" (MCount (nunique_str (map constructor_name rs)));
    WSubheader "Races per Year";
    WYearSeries (map (fun p => (fst p, Some (Qnat (snd p)))) (races_per_year filtered));
    WSubheader "Top Constructors by Wins";
    WBarChart (top_constructors argsort filtered) ].

(** ** Race Insight (lines 90-133) *)

Definition race_insight_page (argsort : list Q -> list nat) (filtered : Table)
    (year_choice race_choice : nat) : list Widget :=
  let rs := rows filtered in
  let selected_year := selectbox (group_keys_Z (map year rs)) year_choice in
  let in_year r := match selected_year with Some y => (year r =? y)%Z | None => false end in
  let available_races := map (fun r => Some (race_name r)) (filter in_year rs) in
  let selected_race := selectbox (group_keys_str available_races) race_choice in
  let race_df :=
    sort_values argsort (fun r => Some (QZ (positionOrder r))) true
      (filter (fun r => in_year r &&
                 match selected_race with
                 | Some s => String.eqb (race_name r) s | None => false end) rs) in
  [ WTitle "Race Insight";
    WSubheader "Results";
    WRows race_df;
    WSubheader "Grid vs Final Position";
    WScatter (map (fun r => (grid r, positionOrder r, constructor_name r)) race_df) ].

(** Lines 97-101: the race options of a selected year,
    [sorted(filtered_df[filtered_df["year"] == y]["race_name"].unique())]. *)
Definition race_options (filtered : Table) (y : Z) : list string :=
  group_keys_str (map (fun r => Some (race_name r))
                      (filter (fun r => (year r =? y)%Z) (rows filtered))).

(** ** Driver Performance and Constructor Analysis (lines 136-214) *)

(** [len(x_df[x_df['positionOrder'] == 1])] *)
Definition wins_count (xs : list Row) : nat :=
  length (filter (fun r => (positionOrder r =? 1)%Z) xs).

(** [len(x_df[x_df['positionOrder'].isin([1, 2, 3])])] *)
Definition podiums_count (xs : list Row) : nat :=
  length (filter (fun r => existsb (Z.eqb (positionOrder r)) [1; 2; 3]%Z) xs).

(** [groupby('year').agg({'positionOrder': 'mean', 'points': 'sum'})] *)
Definition performance_by_year (xs : list Row) : list (Z * option Q * Q) :=
  map (fun y => let g := rows_of_year y xs in
                (y, meanQ (map (fun r => Some (QZ (positionOrder r))) g),
                 sumQ (map points g)))
      (group_keys_Z (map year xs)).

Definition entity_rows (field : Row -> option string) (sel : option string)
    (filtered : Table) : list Row :=
  filter (fun r => match sel with Some s => opt_str_eqb (field r) s | None => false end)
         (rows filtered).

Definition metrics (xs : list Row) : list Widget :=
  [ WMetric "Races Participated" (MCount (length xs));
    WMetric "Wins" (MCount (wins_count xs));
    WMetric "Podiums" (MCount (podiums_count xs)) ].

(** [df] is the unfiltered frame (the driver list of line 28 comes from it). *)
Definition driver_page (df filtered : Table) (choice : nat) : list Widget :=
  let selected_driver := selectbox (group_keys_str (map driver_name (rows df))) choice in
  let driver_df := entity_rows driver_name selected_driver filtered in
  let perf := performance_by_year driver_df in
  [ WTitle "Driver Performance" ] ++ metrics driver_df ++
  [ WSubheader "Performance Over Years";
    WYearSeries (map (fun p => (fst (fst p), snd (fst p))) perf);
    WSubheader "Points Accumulation";
    WYearSeries (map (fun p => (fst (fst p), Some (snd p))) perf) ].

(** Lines 205-209: per driver mean position, summed points, race count, sorted
    by points descending, first five. *)
Definition top_drivers (argsort : list Q -> list nat) (xs : list Row)
    : list (string * list (option Q)) :=
  let agg := map (fun d =>
               let g := filter (fun r => opt_str_eqb (driver_name r) d) xs in
               (d, [meanQ (map (fun r => Some (QZ (positionOrder r))) g);
                    Some (sumQ (map points g)); Some (Qnat (length g))]))
             (group_keys_str (map driver_name xs)) in
  head 5 (sort_values argsort (fun p => nth 1 (snd p) None) false agg).

Definition constructor_page (argsort : list Q -> list nat) (df filtered : Table)
    (choice : nat) : list Widget :=
  let selected := selectbox (group_keys_str (map constructor_name (rows df))) choice in
  let constructor_df := entity_rows constructor_name selected filtered in
  let perf := performance_by_year constructor_df in
  [ WTitle "Constructor Analysis" ] ++ metrics constructor_df ++
  [ WSubheader "Performance Over Years";
    WYearSeries (map (fun p => (fst (fst p), snd (fst p))) perf);
    WYearSeries (map (fun p => (fst (fst p), Some (snd p))) perf);
    WSubheader "Top Drivers";
    WStats (top_drivers argsort constructor_df) ].

(** ** Fastest Lap (lines 217-270) *)

(** Lines 224-227: the [rank == 1] rows with their coerced speed. *)
Definition fastest_laps (to_float : string -> option Q) (filtered : Table)
    : list (Row * option Q) :=
  map (fun r => (r, to_numeric to_float (fastestLapSpeed r)))
      (filter (fun r => (rank r =? 1)%Z) (rows filtered)).

Definition is_nan (o : option Q) : bool :=
  match o with None => true | Some _ => false end.

(** Line 233: [fastest_laps.sort_values('fastestLapSpeed', ascending=False).head(10)] *)
Definition top_speeds (argsort : list Q -> list nat) (fl : list (Row * option Q))
    : list (Row * option Q) :=
  head 10 (sort_values argsort snd false fl).

(** Line 243: [groupby('year')['fastestLapSpeed'].mean()] *)
Definition speed_trend (fl : list (Row * option Q)) : list (Z * option Q) :=
  map (fun y => (y, meanQ (map snd (filter (fun p => (year (fst p) =? y)%Z) fl))))
      (group_keys_Z (map (fun p => year (fst p)) fl)).

(** Lines 252-255: per driver mean speed and count, by mean speed descending. *)
Definition fastest_drivers (argsort : list Q -> list nat) (fl : list (Row * option Q))
    : list (string * list (option Q)) :=
  let agg := map (fun d =>
               let g := filter (fun p => opt_str_eqb (driver_name (fst p)) d) fl in
               (d, [meanQ (map snd g); Some (Qnat (length g))]))
             (group_keys_str (map (fun p => driver_name (fst p)) fl)) in
  head 10 (sort_values argsort (fun p => nth 0 (snd p) None) false agg).

Definition fastest_lap_page (argsort : list Q -> list nat)
    (to_float : string -> option Q) (filtered : Table) : list Widget :=
  if negb (has_fastestLapSpeed filtered) then
    [ WTitle "Fastest Lap Analysis";
      WWarning "Fastest lap speed data is not available in the dataset" ]
  else
    let fl := fastest_laps to_float filtered in
    if (match fl with [] => true | _ => false end) || forallb (fun p => is_nan (snd p)) fl then
      [ WTitle "Fastest Lap Analysis";
        WWarning "No fastest lap speed data available for the selected filters" ]
    else
      [ WTitle "Fastest Lap Analysis";
        WSubheader "Top 10 Fastest Laps";
        WSpeedRows (top_speeds argsort fl);
        WSubheader "Fastest Lap Speed Trend";
        WYearSeries (speed_trend fl);
        WSubheader "Fastest Drivers";
        WStats (fastest_drivers argsort fl);
        WSubheader "Fastest Lap Speed Distribution";
        WHistogram (flat_map (fun p => match snd p with Some q => [q] | None => [] end) fl) ].

(** ** The page selected in the sidebar (lines 65-68) *)

Inductive Page : Type :=
| Overview
| RaceInsight (year_choice race_choice : nat)
| DriverPerformance (choice : nat)
| ConstructorAnalysis (choice : nat)
| FastestLap.

Definition render_page (argsort : list Q -> list nat) (to_float : string -> option Q)
    (df filtered : Table) (page : Page) : list Widget :=
  match page with
  | Overview => overview_page argsort filtered
  | RaceInsight yc rc => race_insight_page argsort filtered yc rc
  | DriverPerformance c => driver_page df filtered c
  | ConstructorAnalysis c => constructor_page argsort df filtered c
  | FastestLap => fastest_lap_page argsort to_float filtered
  end.

(** A page reports a "no data" state when it shows a warning. *)
Definition reports_no_data (ws : list Widget) : bool :=
  existsb (fun w => match w with WWarning _ => true | _ => false end) ws.

(** ** numpy's portable [argsort(kind='quicksort')]

    [aquicksort_] of [numpy/_core/src/npysort/quicksort.cpp]: an introsort on
    an index array, median-of-three partitioning, insertion sort for segments
    of at most 16 elements ([SMALL_QUICKSORT = 15]) and [aheapsort_] once the
    depth budget [2 * msb(n)] is spent.  It is the implementation numpy uses
    when no SIMD kernel is dispatched.  Pointers are positions in the index
    array [a]; the loops carry fuel that is never exhausted on valid input. *)
Module NumpyQuicksort.

Definition less (x y : Q) : bool := negb (Qle_bool y x).

Fixpoint set_nth (a : list nat) (i x : nat) : list nat :=
  match a, i with
  | [], _ => []
  | _ :: a', O => x :: a'
  | y :: a', S i' => y :: set_nth a' i' x
  end.

Definition get (a : list nat) (i : nat) : nat := nth i a 0%nat.
Definition val (v : list Q) (a : list nat) (i : nat) : Q := nth (get a i) v 0.
Definition swap (a : list nat) (i j : nat) : list nat :=
  set_nth (set_nth a i (get a j)) j (get a i).

(** [do { ++pi; } while (less(v[*pi], vp));] *)
Fixpoint scan_up (fuel : nat) (v : list Q) (a : list nat) (pi : nat) (vp : Q) : nat :=
  match fuel with
  | O => pi
  | S f => if less (val v a (S pi)) vp then scan_up f v a (S pi) vp else S pi
  end.

(** [do { --pj; } while (less(vp, v[*pj]));] *)
Fixpoint scan_down (fuel : nat) (v : list Q) (a : list nat) (pj : nat) (vp : Q) : nat :=
  match fuel with
  | O => pj
  | S f => if less vp (val v a (pred pj)) then scan_down f v a (pred pj) vp else pred pj
  end.

Fixpoint partition_loop (fuel : nat) (v : list Q) (a : list nat) (pi pj : nat) (vp : Q)
    : list nat * nat :=
  match fuel with
  | O => (a, pi)
  | S f =>
      let pi' := scan_up (length a) v a pi vp in
      let pj' := scan_down (length a) v a pj vp in
      if (pj' <=? pi')%nat then (a, pi')
      else partition_loop f v (swap a pi' pj') pi' pj' vp
  end.

(** One quicksort partition of [pl..pr]; returns the array and the pivot
    position [pi]. *)
Definition partition (v : list Q) (a : list nat) (pl pr : nat) : list nat * nat :=
  let pm := (pl + Nat.div2 (pr - pl))%nat in
  let a1 := if less (val v a pm) (val v a pl) then swap a pm pl else a in
  let a2 := if less (val v a1 pr) (val v a1 pm) then swap a1 pr pm else a1 in
  let a3 := if less (val v a2 pm) (val v a2 pl) then swap a2 pm pl else a2 in
  let vp := val v a3 pm in
  let a4 := swap a3 pm (pr - 1) in
  let '(a5, pi) := partition_loop (length a4) v a4 pl (pr - 1) vp in
  (swap a5 pi (pr - 1), pi).

(** [while (pj > pl && less(vp, v[*pk])) { *pj-- = *pk--; } *pj = vi;] *)
Fixpoint insert_shift (fuel : nat) (v : list Q) (a : list nat) (pl pj vi : nat) (vp : Q)
    : list nat :=
  match fuel with
  | O => set_nth a pj vi
  | S f =>
      if (pl <? pj)%nat && less vp (val v a (pred pj))
      then insert_shift f v (set_nth a pj (get a (pred pj))) pl (pred pj) vi vp
      else set_nth a pj vi
  end.

Definition insertion_sort (v : list Q) (a : list nat) (pl pr : nat) : list nat :=
  fold_left (fun a pi => let vi := get a pi in
                         insert_shift (length a) v a pl pi vi (nth vi v 0))
            (seq (S pl) (pr - pl)) a.

(** [aheapsort_] on the [n] entries starting at [pl], 1-based as in the C code. *)
Definition hget (a : list nat) (pl k : nat) : nat := get a (pl + k - 1).
Definition hset (a : list nat) (pl k x : nat) : list nat := set_nth a (pl + k - 1) x.

Fixpoint sift (fuel : nat) (v : list Q) (a : list nat) (pl tmp i j n : nat) : list nat :=
  match fuel with
  | O => hset a pl i tmp
  | S f =>
      if (j <=? n)%nat then
        let j' := if (j <? n)%nat && less (nth (hget a pl j) v 0) (nth (hget a pl (S j)) v 0)
                  then S j else j in
        if less (nth tmp v 0) (nth (hget a pl j') v 0)
        then sift f v (hset a pl i (hget a pl j')) pl tmp j' (j' + j') n
        else hset a pl i tmp
      else hset a pl i tmp
  end.

Fixpoint heap_build (k : nat) (v : list Q) (a : list nat) (pl n : nat) : list nat :=
  (* [for (l = n >> 1; l > 0; --l)], [k] counts the remaining [l] *)
  match k with
  | O => a
  | S k' => let l := k in
            heap_build k' v (sift (length a) v a pl (hget a pl l) l (l + l) n) pl n
  end.

Fixpoint heap_extract (k : nat) (v : list Q) (a : list nat) (pl : nat) : list nat :=
  (* [for (; n > 1;)], with [n = k + 1] *)
  match k with
  | O => a
  | S k' => let n := S k in
            let tmp := hget a pl n in
            let a' := hset a pl n (hget a pl 1) in
            heap_extract k' v (sift (length a) v a' pl tmp 1 2 (pred n)) pl
  end.

Definition aheapsort (v : list Q) (a : list nat) (pl n : nat) : list nat :=
  heap_extract (pred n) v (heap_build (Nat.div2 n) v a pl n) pl.

(** The main loop; [top] tells whether control is at the head of the outer
    [for (;;)], where the depth budget is checked. *)
Fixpoint qs_loop (fuel : nat) (v : list Q) (a : list nat) (pl pr : nat) (cdepth : Z)
    (stack : list (nat * nat * Z)) (top : bool) : list nat :=
  match fuel with
  | O => a
  | S f =>
      let pop a st :=
        match st with
        | [] => a
        | (l, r, d) :: st' => qs_loop f v a l r d st' true
        end in
      if top && (cdepth <? 0)%Z then pop (aheapsort v a pl (S (pr - pl))) stack
      else if (15 <? pr - pl)%nat then
        let '(a', pi) := partition v a pl pr in
        let cd := (cdepth - 1)%Z in
        if (pi - pl <? pr - pi)%nat
        then qs_loop f v a' pl (pi - 1) cd ((S pi, pr, cd) :: stack) false
        else qs_loop f v a' (S pi) pr cd ((pl, (pi - 1)%nat, cd) :: stack) false
      else pop (insertion_sort v a pl pr) stack
  end.

(** [np.argsort(v, kind='quicksort')]: [aquicksort_] on [arange(n)]. *)
Definition np_argsort (v : list Q) : list nat :=
  let n := length v in
  qs_loop (3 * n + 3) v (seq 0 n) 0 (n - 1) (2 * Z.log2 (Z.of_nat n)) [] true.

End NumpyQuicksort.

(** ** Contracts and reference definitions used in the statements *)

(** The row predicate the three stages of [filtered_df] apply together. *)
Definition country_keep (selected_country : string) (r : Row) : bool :=
  if String.eqb selected_country "All Countries" then true
  else country_mask selected_country r.

Definition circuit_keep (selected_circuits : list string) (r : Row) : bool :=
  if existsb (String.eqb "All Circuits") selected_circuits then true
  else circuit_mask selected_circuits r.

Definition filter_keep (year_min year_max : Z) (selected_country : string)
    (selected_circuits : list string) (r : Row) : bool :=
  year_mask year_min year_max r && country_keep selected_country r
  && circuit_keep selected_circuits r.

(** What [ndarray.argsort] guarantees for every [kind]: a permutation of the
    positions that lists the values in ascending order.  Nothing is promised
    about the order of equal values for [kind='quicksort']. *)
Definition argsort_spec (argsort : list Q -> list nat) : Prop :=
  forall v : list Q,
    Permutation (argsort v) (seq 0 (length v)) /\
    StronglySorted (fun i j => nth i v 0 <= nth j v 0) (argsort v).

(** A stable argsort (insertion on positions), one sort meeting [argsort_spec]. *)
Fixpoint insert_index (v : list Q) (i : nat) (l : list nat) : list nat :=
  match l with
  | [] => [i]
  | j :: l' => if Qle_bool (nth i v 0) (nth j v 0) then i :: l
               else j :: insert_index v i l'
  end.

Definition insertion_argsort (v : list Q) : list nat :=
  fold_right (insert_index v) [] (seq 0 (length v)).

(** Order of a column sorted descending with NaN last: [x] may precede [y]. *)
Definition desc_nan_last (x y : option Q) : Prop :=
  match x, y with
  | Some a, Some b => b <= a
  | Some _, None => True
  | None, None => True
  | None, Some _ => False
  end.

(** Order of a column sorted ascending with NaN last: [x] may precede [y]. *)
Definition asc_nan_last (x y : option Q) : Prop :=
  match x, y with
  | Some a, Some b => a <= b
  | Some _, None => True
  | None, None => True
  | None, Some _ => False
  end.

(** [Series.notna()] on one cell. *)
Definition is_some {A : Type} (o : option A) : bool :=
  match o with Some _ => true | None => false end.

(** Strict order of text as [sorted] and [groupby] use it. *)
Definition str_lt (a b : string) : Prop := String.compare a b = Lt.

(** The spec's reading of the top-constructors table: descending by wins,
    equal win counts kept in grouping order (a stable sort), first ten. *)
Fixpoint insert_desc_stable (p : string * Z) (l : list (string * Z)) : list (string * Z) :=
  match l with
  | [] => [p]
  | q :: l' => if (snd q <=? snd p)%Z then p :: l else q :: insert_desc_stable p l'
  end.

Definition spec_top_constructors (df : Table) : list (string * Z) :=
  head 10 (fold_right insert_desc_stable [] (constructor_wins df)).

(** The spec's reading of the fastest-lap table: strictly descending speeds. *)
Definition strictly_desc (xs : list (Row * option Q)) : Prop :=
  StronglySorted (fun p q => exists a b, snd p = Some a /\ snd q = Some b /\ b < a) xs.

(** The value a page shows under a metric label. *)
Definition metric_value (label : string) (ws : list Widget) : option Metric :=
  match find (fun w => match w with WMetric l _ => String.eqb l label | _ => false end) ws with
  | Some (WMetric _ m) => Some m
  | _ => None
  end.

(** A plain-decimal reading of text ([digits], optionally [.digits]), a subset
    of what pandas' string-to-float conversion accepts; text such as ["\N"]
    does not parse. *)
Definition digit (c : Ascii.ascii) : option Z :=
  let n := Ascii.nat_of_ascii c in
  if (48 <=? n)%nat && (n <=? 57)%nat then Some (Z.of_nat (n - 48)) else None.

Fixpoint parse_frac (s : string) (num den : Z) (seen : bool) : option Q :=
  match s with
  | EmptyString => if seen then Some (Qmake num (Z.to_pos den)) else None
  | String c s' => match digit c with
                   | Some d => parse_frac s' (num * 10 + d) (den * 10) true
                   | None => None
                   end
  end.

Fixpoint parse_int (s : string) (num : Z) (seen : bool) : option Q :=
  match s with
  | EmptyString => if seen then Some (inject_Z num) else None
  | String c s' =>
      if Ascii.eqb c "."%char then parse_frac s' num 1 seen
      else match digit c with
           | Some d => parse_int s' (num * 10 + d) true
           | None => None
           end
  end.

Definition py_float (s : string) : option Q := parse_int s 0 false.

(** ** Concrete tables *)

Definition mk (y : Z) (cn : option string) (ci : option string) (con : string)
    (pos : Z) (speed : Cell) : Row :=
  mkRow y 1 "Grand Prix" cn ci (Some "Driver") (Some con) 1 0 pos pos speed.

(** The three-row table of the spec's example. *)
Definition example_table : Table :=
  mkTable false [ mk 2020 (Some "Italy") (Some "Monza") "Red" 1 CNA;
                  mk 2020 (Some "Italy") (Some "Monza") "Blue" 2 CNA;
                  mk 2021 (Some "Italy") (Some "Monza") "Blue" 1 CNA ].

(** Two race winners who also set the fastest lap, at the same speed (the
    second written as text in the CSV). *)
Definition tie_table : Table :=
  mkTable true [ mk 2020 (Some "Italy") (Some "Monza") "Red" 1 (CNum 200);
                 mk 2021 (Some "Italy") (Some "Monza") "Blue" 1 (CStr "200") ].

(** Seventeen constructors with one win each, named A to Q. *)
Definition seventeen_winners : Table :=
  mkTable false
    (map (fun c => mk 2020 (Some "Italy") (Some "Monza") (String c EmptyString) 1 CNA)
         ["A"; "B"; "C"; "D"; "E"; "F"; "G"; "H"; "I"; "J"; "K"; "L"; "M"; "N";
          "O"; "P"; "Q"]%char).

(** * Proofs *)

(** ** Lemmas on row masks *)

Lemma filter_filter_andb {A : Type} (f g : A -> bool) (l : list A) :
  filter f (filter g l) = filter (fun x => g x && f x) l.
Proof.
  induction l as [|x l IH]; simpl; [reflexivity|].
  destruct (g x); simpl; [destruct (f x); simpl|]; rewrite IH; reflexivity.
Qed.

Lemma filter_all_true {A : Type} (f : A -> bool) (l : list A) :
  (forall x, In x l -> f x = true) -> filter f l = l.
Proof.
  induction l as [|x l IH]; intros H; simpl; [reflexivity|].
  rewrite (H x (or_introl eq_refl)), IH; [reflexivity|].
  intros y Hy; apply H; right; exact Hy.
Qed.

Lemma filter_all_false {A : Type} (f : A -> bool) (l : list A) :
  (forall x, In x l -> f x = false) -> filter f l = [].
Proof.
  induction l as [|x l IH]; intros H; simpl; [reflexivity|].
  rewrite (H x (or_introl eq_refl)); apply IH.
  intros y Hy; apply H; right; exact Hy.
Qed.

Lemma Subseq_refl {A : Type} (l : list A) : Subseq l l.
Proof. induction l; constructor; assumption. Qed.

Lemma Subseq_filter {A : Type} (f : A -> bool) (l : list A) : Subseq (filter f l) l.
Proof.
  induction l as [|x l IH]; simpl; [constructor|].
  destruct (f x); constructor; exact IH.
Qed.

Lemma opt_str_eqb_true (o : option string) (s : string) :
  opt_str_eqb o s = true <-> o = Some s.
Proof.
  destruct o as [x|]; simpl; [|split; discriminate].
  rewrite String.eqb_eq; split; [intros ->|intros [= ->]]; reflexivity.
Qed.

Lemma existsb_eqb_In (c : string) (cs : list string) :
  existsb (String.eqb c) cs = true <-> In c cs.
Proof.
  rewrite existsb_exists; split.
  - intros [x [Hx Heq]]; apply String.eqb_eq in Heq; subst; exact Hx.
  - intros H; exists c; split; [exact H | apply String.eqb_refl].
Qed.

Lemma filter_year_rows a b t :
  rows (filter_year a b t) = filter (year_mask a b) (rows t).
Proof. reflexivity. Qed.

Lemma filter_country_rows c t :
  rows (filter_country c t) = filter (country_keep c) (rows t).
Proof.
  unfold filter_country, country_keep.
  destruct (String.eqb c "All Countries"); simpl; [|reflexivity].
  symmetry; apply filter_all_true; reflexivity.
Qed.

Lemma filter_circuits_rows cs t :
  rows (filter_circuits cs t) = filter (circuit_keep cs) (rows t).
Proof.
  unfold filter_circuits, circuit_keep.
  destruct (existsb (String.eqb "All Circuits") cs); simpl; [|reflexivity].
  symmetry; apply filter_all_true; reflexivity.
Qed.

Lemma stages_keep_columns a b c cs t :
  has_fastestLapSpeed (filtered_df t a b c cs) = has_fastestLapSpeed t.
Proof.
  unfold filtered_df, filter_circuits, filter_country.
  destruct (String.eqb c "All Countries"), (existsb (String.eqb "All Circuits") cs);
    reflexivity.
Qed.

Lemma filtered_df_rows a b c cs t :
  rows (filtered_df t a b c cs) = filter (filter_keep a b c cs) (rows t).
Proof.
  unfold filtered_df.
  rewrite filter_circuits_rows, filter_country_rows, filter_year_rows.
  rewrite !filter_filter_andb; apply filter_ext; intros r.
  unfold filter_keep; rewrite andb_assoc; reflexivity.
Qed.

Lemma col_min_fold (xs : list Z) (x : Z) :
  (fold_left Z.min xs x <= x)%Z /\ forall y, In y xs -> (fold_left Z.min xs x <= y)%Z.
Proof.
  revert x; induction xs as [|z xs IH]; intros x; simpl.
  - split; [lia | intros y []].
  - destruct (IH (Z.min x z)) as [H1 H2]; split; [lia|].
    intros y [<-|Hy]; [lia | apply H2; exact Hy].
Qed.

Lemma col_max_fold (xs : list Z) (x : Z) :
  (x <= fold_left Z.max xs x)%Z /\ forall y, In y xs -> (y <= fold_left Z.max xs x)%Z.
Proof.
  revert x; induction xs as [|z xs IH]; intros x; simpl.
  - split; [lia | intros y []].
  - destruct (IH (Z.max x z)) as [H1 H2]; split; [lia|].
    intros y [<-|Hy]; [lia | apply H2; exact Hy].
Qed.

Lemma col_min_le (xs : list Z) (m : Z) :
  col_min xs = Some m -> forall y, In y xs -> (m <= y)%Z.
Proof.
  destruct xs as [|x xs]; simpl; [discriminate|]; intros [= <-] y Hy.
  destruct (col_min_fold xs x) as [H1 H2]; destruct Hy as [<-|Hy]; [exact H1|].
  apply H2; exact Hy.
Qed.

Lemma col_max_ge (xs : list Z) (m : Z) :
  col_max xs = Some m -> forall y, In y xs -> (y <= m)%Z.
Proof.
  destruct xs as [|x xs]; simpl; [discriminate|]; intros [= <-] y Hy.
  destruct (col_max_fold xs x) as [H1 H2]; destruct Hy as [<-|Hy]; [exact H1|].
  apply H2; exact Hy.
Qed.

(** ** Filter engine *)

(** C1: every row [filtered_df] returns has [year_min <= year <= year_max],
    and the returned rows are a sub-list of the input rows (each output row
    is an input row, taken at a distinct position, in order). *)
Theorem filtered_df_year_range (df : Table) (year_min year_max : Z)
    (selected_country : string) (selected_circuits : list string) :
  let out := rows (filtered_df df year_min year_max selected_country selected_circuits) in
  (forall r, In r out -> (year_min <= year r <= year_max)%Z) /\ Subseq out (rows df).
Proof.
  cbv zeta; rewrite filtered_df_rows; split; [|apply Subseq_filter].
  intros r Hr; apply filter_In in Hr as [_ Hk].
  unfold filter_keep, year_mask in Hk.
  apply andb_true_iff in Hk as [Hk _]; apply andb_true_iff in Hk as [Hk _].
  apply andb_true_iff in Hk as [H1 H2]; apply Z.leb_le in H1; apply Z.leb_le in H2.
  lia.
Qed.

(** C2 (counterexample): with the empty circuit selection the circuit stage
    is not the identity: it removes every row. *)
Lemma filter_circuits_empty_not_identity :
  rows (filter_circuits [] example_table) <> rows example_table.
Proof. vm_compute; discriminate. Qed.

(** C2 (amended): when the selection contains ["All Circuits"] the circuit
    stage returns its input unchanged; otherwise it keeps exactly the rows whose
    [circuit_name] is in the selection, so the empty selection keeps no row. *)
Theorem filter_circuits_sentinel (selected_circuits : list string) (t : Table) :
  (In "All Circuits" selected_circuits -> filter_circuits selected_circuits t = t) /\
  (~ In "All Circuits" selected_circuits ->
     forall r, In r (rows (filter_circuits selected_circuits t)) <->
               In r (rows t) /\
               exists c, circuit_name r = Some c /\ In c selected_circuits) /\
  (selected_circuits = [] -> rows (filter_circuits selected_circuits t) = []).
Proof.
  unfold filter_circuits; split; [|split].
  - intros H; apply existsb_eqb_In in H; rewrite H; reflexivity.
  - intros H r.
    assert (Hf : existsb (String.eqb "All Circuits") selected_circuits = false).
    { apply not_true_iff_false; rewrite existsb_eqb_In; exact H. }
    rewrite Hf; simpl; rewrite filter_In; unfold circuit_mask.
    destruct (circuit_name r) as [c|]; split.
    + intros [Hr Hc]; split; [exact Hr|]; exists c; split; [reflexivity|].
      apply existsb_eqb_In; exact Hc.
    + intros [Hr [c' [[= <-] Hc]]]; split; [exact Hr|]; apply existsb_eqb_In; exact Hc.
    + intros [_ Hc]; discriminate.
    + intros [_ [c' [Hc _]]]; discriminate.
  - intros ->; simpl; apply filter_all_false; intros r _; unfold circuit_mask.
    destruct (circuit_name r); reflexivity.
Qed.

(** C4: filtering the loaded table with its own year range
    [[min year, max year]] and the sentinels ["All Countries"] and
    ["All Circuits"] returns the loaded table itself, i.e. the CSV rows with
    [rank] copied from [positionOrder] when the CSV has no [rank] column. *)
Theorem full_range_sentinels_identity (raw : RawTable) (year_min year_max : Z) :
  col_min (map year (rows (load_data raw))) = Some year_min ->
  col_max (map year (rows (load_data raw))) = Some year_max ->
  filtered_df (load_data raw) year_min year_max "All Countries" ["All Circuits"]
    = load_data raw /\
  (raw_has_rank raw = true -> load_data raw = raw_table raw) /\
  (raw_has_rank raw = false ->
     rows (load_data raw) = map set_rank_from_position (rows (raw_table raw)) /\
     forall r, In r (rows (load_data raw)) -> rank r = positionOrder r).
Proof.
  intros Hmin Hmax; split; [|split].
  - unfold filtered_df, filter_circuits, filter_country; simpl.
    unfold filter_year, with_rows.
    rewrite filter_all_true; [destruct (load_data raw); reflexivity|].
    intros r Hr; unfold year_mask.
    pose proof (col_min_le _ _ Hmin (year r) (in_map year _ _ Hr)).
    pose proof (col_max_ge _ _ Hmax (year r) (in_map year _ _ Hr)).
    apply andb_true_iff; split; apply Z.leb_le; assumption.
  - intros H; unfold load_data; rewrite H; reflexivity.
  - intros H; unfold load_data; rewrite H; simpl; split; [reflexivity|].
    intros r Hr; apply in_map_iff in Hr as [r0 [<- _]]; reflexivity.
Qed.

(** C8: a selection other than ["All Countries"] keeps exactly the rows whose
    [country] equals it; the result is non-empty when the selected country
    occurs in the input and empty (no error) when it does not. *)
Theorem filter_country_exact (t : Table) (selected_country : string) :
  selected_country <> "All Countries" ->
  rows (filter_country selected_country t)
    = filter (fun r => opt_str_eqb (country r) selected_country) (rows t) /\
  (forall r, In r (rows (filter_country selected_country t)) ->
     country r = Some selected_country) /\
  ((exists r, In r (rows t) /\ country r = Some selected_country) ->
     rows (filter_country selected_country t) <> []) /\
  ((forall r, In r (rows t) -> country r <> Some selected_country) ->
     rows (filter_country selected_country t) = []).
Proof.
  intros Hc.
  assert (Hrows : rows (filter_country selected_country t)
                  = filter (fun r => opt_str_eqb (country r) selected_country) (rows t)).
  { unfold filter_country.
    destruct (String.eqb_spec selected_country "All Countries") as [E|_];
      [contradiction | reflexivity]. }
  rewrite Hrows; split; [reflexivity|split; [|split]].
  - intros r Hr; apply filter_In in Hr as [_ H]; apply opt_str_eqb_true; exact H.
  - intros [r [Hr Hcr]] Hnil.
    assert (Hin : In r (filter (fun r => opt_str_eqb (country r) selected_country) (rows t))).
    { apply filter_In; split; [exact Hr | apply opt_str_eqb_true; exact Hcr]. }
    rewrite Hnil in Hin; destruct Hin.
  - intros Hnone; apply filter_all_false; intros r Hr.
    apply not_true_iff_false; rewrite opt_str_eqb_true; apply Hnone; exact Hr.
Qed.

(** C10: each stage of [filtered_df] is a boolean row mask, and so is their
    composition: the result lists the input rows that pass, unchanged and in
    their input order; the columns of the frame are kept. *)
Theorem filtered_df_is_row_mask (df : Table) (year_min year_max : Z)
    (selected_country : string) (selected_circuits : list string) :
  (forall t, rows (filter_year year_min year_max t)
             = filter (year_mask year_min year_max) (rows t)) /\
  (forall t, rows (filter_country selected_country t)
             = filter (country_keep selected_country) (rows t)) /\
  (forall t, rows (filter_circuits selected_circuits t)
             = filter (circuit_keep selected_circuits) (rows t)) /\
  rows (filtered_df df year_min year_max selected_country selected_circuits)
    = filter (filter_keep year_min year_max selected_country selected_circuits) (rows df) /\
  Subseq (rows (filtered_df df year_min year_max selected_country selected_circuits))
         (rows df) /\
  has_fastestLapSpeed (filtered_df df year_min year_max selected_country selected_circuits)
    = has_fastestLapSpeed df.
Proof.
  split; [exact (filter_year_rows year_min year_max)|].
  split; [exact (filter_country_rows selected_country)|].
  split; [exact (filter_circuits_rows selected_circuits)|].
  rewrite filtered_df_rows; split; [reflexivity|].
  split; [apply Subseq_filter | apply stages_keep_columns].
Qed.

(** ** Driver Performance and Constructor Analysis metrics *)

Lemma length_filter_andb {A : Type} (p q : A -> bool) (l : list A) :
  length (filter q (filter p l)) = length (filter (fun x => p x && q x) l).
Proof. rewrite filter_filter_andb; reflexivity. Qed.

Lemma length_filter_mono {A : Type} (p q : A -> bool) (l : list A) :
  (forall x, p x = true -> q x = true) ->
  (length (filter p l) <= length (filter q l))%nat.
Proof.
  intros H; induction l as [|x l IH]; simpl; [lia|].
  destruct (p x) eqn:Hp; [rewrite (H x Hp); simpl; lia|].
  destruct (q x); simpl; lia.
Qed.

Lemma podium_iff (r : Row) :
  existsb (Z.eqb (positionOrder r)) [1; 2; 3]%Z
  = (1 <=? positionOrder r)%Z && (positionOrder r <=? 3)%Z.
Proof.
  simpl; destruct (Z.eqb_spec (positionOrder r) 1), (Z.eqb_spec (positionOrder r) 2),
    (Z.eqb_spec (positionOrder r) 3); simpl;
  destruct (Z.leb_spec 1 (positionOrder r)), (Z.leb_spec (positionOrder r) 3);
  simpl; try reflexivity; lia.
Qed.

Lemma metrics_lookup (s : string) (xs : list Row) (ws : list Widget) :
  metric_value "Wins" ([WTitle s] ++ metrics xs ++ ws) = Some (MCount (wins_count xs)) /\
  metric_value "Podiums" ([WTitle s] ++ metrics xs ++ ws) = Some (MCount (podiums_count xs)).
Proof. split; reflexivity. Qed.

Lemma entity_counts (field : Row -> option string) (sel : option string) (filtered : Table) :
  let is_sel r := match sel with Some s => opt_str_eqb (field r) s | None => false end in
  wins_count (entity_rows field sel filtered)
    = length (filter (fun r => is_sel r && (positionOrder r =? 1)%Z) (rows filtered)) /\
  podiums_count (entity_rows field sel filtered)
    = length (filter (fun r => is_sel r && (1 <=? positionOrder r)%Z
                                        && (positionOrder r <=? 3)%Z) (rows filtered)) /\
  (wins_count (entity_rows field sel filtered)
     <= podiums_count (entity_rows field sel filtered))%nat.
Proof.
  cbv zeta; unfold wins_count, podiums_count, entity_rows.
  rewrite !length_filter_andb; split; [reflexivity|split].
  - f_equal; apply filter_ext; intros r; rewrite podium_iff, andb_assoc; reflexivity.
  - apply length_filter_mono; intros r H; apply andb_true_iff in H as [H1 H2].
    rewrite H1; simpl; apply Z.eqb_eq in H2; rewrite H2; reflexivity.
Qed.

(** C9: on the Driver Performance and the Constructor Analysis pages the
    "Wins" metric is the number of filtered rows of the selected driver
    (constructor) with [positionOrder = 1], the "Podiums" metric the number
    of those with [1 <= positionOrder <= 3], and Podiums >= Wins. *)
Theorem drilldown_wins_podiums (argsort : list Q -> list nat) (df filtered : Table)
    (choice : nat) :
  let sel_d := selectbox (group_keys_str (map driver_name (rows df))) choice in
  let is_d r := match sel_d with Some s => opt_str_eqb (driver_name r) s | None => false end in
  let sel_c := selectbox (group_keys_str (map constructor_name (rows df))) choice in
  let is_c r := match sel_c with Some s => opt_str_eqb (constructor_name r) s | None => false end in
  (exists w p,
     metric_value "Wins" (driver_page df filtered choice) = Some (MCount w) /\
     metric_value "Podiums" (driver_page df filtered choice) = Some (MCount p) /\
     w = length (filter (fun r => is_d r && (positionOrder r =? 1)%Z) (rows filtered)) /\
     p = length (filter (fun r => is_d r && (1 <=? positionOrder r)%Z
                                        && (positionOrder r <=? 3)%Z) (rows filtered)) /\
     (w <= p)%nat) /\
  (exists w p,
     metric_value "Wins" (constructor_page argsort df filtered choice) = Some (MCount w) /\
     metric_value "Podiums" (constructor_page argsort df filtered choice) = Some (MCount p) /\
     w = length (filter (fun r => is_c r && (positionOrder r =? 1)%Z) (rows filtered)) /\
     p = length (filter (fun r => is_c r && (1 <=? positionOrder r)%Z
                                        && (positionOrder r <=? 3)%Z) (rows filtered)) /\
     (w <= p)%nat).
Proof.
  cbv zeta; split.
  - unfold driver_page.
    set (sel := selectbox (group_keys_str (map driver_name (rows df))) choice).
    destruct (entity_counts driver_name sel filtered) as [Hw [Hp Hle]].
    destruct (metrics_lookup "Driver Performance" (entity_rows driver_name sel filtered)
      [WSubheader "Performance Over Years";
       WYearSeries (map (fun p => (fst (fst p), snd (fst p)))
                     (performance_by_year (entity_rows driver_name sel filtered)));
       WSubheader "Points Accumulation";
       WYearSeries (map (fun p => (fst (fst p), Some (snd p)))
                     (performance_by_year (entity_rows driver_name sel filtered)))])
      as [Mw Mp].
    do 2 eexists; split; [exact Mw|split; [exact Mp|]].
    split; [exact Hw|split; [exact Hp|exact Hle]].
  - unfold constructor_page.
    set (sel := selectbox (group_keys_str (map constructor_name (rows df))) choice).
    destruct (entity_counts constructor_name sel filtered) as [Hw [Hp Hle]].
    set (cdf := entity_rows constructor_name sel filtered).
    destruct (metrics_lookup "Constructor Analysis" cdf
      [WSubheader "Performance Over Years";
       WYearSeries (map (fun p => (fst (fst p), snd (fst p))) (performance_by_year cdf));
       WYearSeries (map (fun p => (fst (fst p), Some (snd p))) (performance_by_year cdf));
       WSubheader "Top Drivers"; WStats (top_drivers argsort cdf)]) as [Mw Mp].
    do 2 eexists; split; [exact Mw|split; [exact Mp|]].
    split; [exact Hw|split; [exact Hp|exact Hle]].
Qed.

(** ** Empty filter results *)

Lemma take_rows_nil {A : Type} (idx : list nat) : take_rows (A := A) idx [] = [].
Proof.
  induction idx as [|i idx IH]; [reflexivity|].
  unfold take_rows in *; simpl; rewrite IH; destruct i; reflexivity.
Qed.

(** C3 (counterexample): a filter that matches no row gives an empty table,
    and the Overview page shows no "no data" notice on it. *)
Lemma overview_empty_without_notice :
  rows (filtered_df example_table 1990 1990 "All Countries" ["All Circuits"]) = [] /\
  reports_no_data
    (render_page NumpyQuicksort.np_argsort py_float example_table
       (filtered_df example_table 1990 1990 "All Countries" ["All Circuits"]) Overview)
  = false.
Proof. split; vm_compute; reflexivity. Qed.

(** C3 (amended): when no row passes the combined predicate, [filtered_df]
    returns an empty table.  On it the Fastest Lap page shows a "no data"
    warning; the other pages show no notice but their metrics over no rows
    (zero counts, NaN year bounds) and empty tables and charts. *)
Theorem empty_filter_views (argsort : list Q -> list nat) (to_float : string -> option Q)
    (df : Table) (year_min year_max : Z) (selected_country : string)
    (selected_circuits : list string) :
  (forall r, In r (rows df) ->
     filter_keep year_min year_max selected_country selected_circuits r = false) ->
  let f := filtered_df df year_min year_max selected_country selected_circuits in
  rows f = [] /\
  reports_no_data (render_page argsort to_float df f FastestLap) = true /\
  render_page argsort to_float df f Overview =
    [ WTitle "F1 Data Overview"; WMetric "Data Rows" (MCount 0);
      WMetric "Years" (MYears None None); WMetric "Drivers" (MCount 0);
      WMetric "Constructors" (MCount 0); WSubheader "Races per Year";
      WYearSeries []; WSubheader "Top Constructors by Wins"; WBarChart [] ] /\
  (forall yc rc, render_page argsort to_float df f (RaceInsight yc rc) =
    [ WTitle "Race Insight"; WSubheader "Results"; WRows [];
      WSubheader "Grid vs Final Position"; WScatter [] ]) /\
  (forall ch, render_page argsort to_float df f (DriverPerformance ch) =
    [ WTitle "Driver Performance"; WMetric "Races Participated" (MCount 0);
      WMetric "Wins" (MCount 0); WMetric "Podiums" (MCount 0);
      WSubheader "Performance Over Years"; WYearSeries [];
      WSubheader "Points Accumulation"; WYearSeries [] ]) /\
  (forall ch, render_page argsort to_float df f (ConstructorAnalysis ch) =
    [ WTitle "Constructor Analysis"; WMetric "Races Participated" (MCount 0);
      WMetric "Wins" (MCount 0); WMetric "Podiums" (MCount 0);
      WSubheader "Performance Over Years"; WYearSeries []; WYearSeries [];
      WSubheader "Top Drivers"; WStats [] ]).
Proof.
  intros Hnone; cbv zeta.
  assert (Hrows : rows (filtered_df df year_min year_max selected_country selected_circuits)
                  = []).
  { rewrite filtered_df_rows; apply filter_all_false; exact Hnone. }
  generalize dependent (filtered_df df year_min year_max selected_country selected_circuits).
  intros [hs rs] Hrows; simpl in Hrows; subst rs.
  split; [reflexivity|split; [|split; [|split; [|split]]]].
  - simpl; unfold fastest_lap_page; destruct hs; reflexivity.
  - unfold render_page, overview_page, top_constructors, sort_values.
    cbn -[take_rows]; rewrite take_rows_nil; reflexivity.
  - intros yc rc; unfold render_page, race_insight_page, sort_values; cbn -[take_rows].
    rewrite take_rows_nil; reflexivity.
  - intros ch; unfold render_page, driver_page, entity_rows; cbn -[take_rows].
    reflexivity.
  - intros ch; unfold render_page, constructor_page, entity_rows, top_drivers, sort_values.
    cbn -[take_rows]; rewrite take_rows_nil; reflexivity.
Qed.

(** ** Fastest Lap: missing data *)

(** C6: without a [fastestLapSpeed] column the page shows the "not available"
    warning; when every [rank == 1] row has a missing speed after coercion
    (in particular when there is no such row) it shows a "no data" warning;
    coercion keeps every [rank == 1] row and turns text that does not parse
    into a missing value. *)
Theorem fastest_lap_no_data (argsort : list Q -> list nat) (to_float : string -> option Q)
    (t : Table) :
  (has_fastestLapSpeed t = false ->
     fastest_lap_page argsort to_float t =
       [ WTitle "Fastest Lap Analysis";
         WWarning "Fastest lap speed data is not available in the dataset" ]) /\
  ((forall p, In p (fastest_laps to_float t) -> snd p = None) ->
     reports_no_data (fastest_lap_page argsort to_float t) = true) /\
  map fst (fastest_laps to_float t) = filter (fun r => (rank r =? 1)%Z) (rows t) /\
  (forall p, In p (fastest_laps to_float t) ->
     snd p = to_numeric to_float (fastestLapSpeed (fst p))) /\
  (forall s, to_float s = None -> to_numeric to_float (CStr s) = None).
Proof.
  split; [|split; [|split; [|split]]].
  - intros H; unfold fastest_lap_page; rewrite H; reflexivity.
  - intros Hnan; unfold fastest_lap_page.
    destruct (has_fastestLapSpeed t); [|reflexivity]; simpl.
    destruct (fastest_laps to_float t) as [|p fl] eqn:Efl; [reflexivity|].
    simpl; replace (is_nan (snd p) && forallb (fun p0 => is_nan (snd p0)) fl) with true;
      [reflexivity|].
    symmetry; apply (proj2 (forallb_forall (fun p0 => is_nan (snd p0)) (p :: fl))).
    intros x Hx.
    rewrite (Hnan x Hx); reflexivity.
  - unfold fastest_laps; rewrite map_map; apply map_id.
  - unfold fastest_laps; intros p Hp; apply in_map_iff in Hp as [r [<- _]]; reflexivity.
  - intros s H; exact H.
Qed.

(** ** Sorting: [nargsort] under any [argsort] meeting [argsort_spec] *)

Lemma StronglySorted_app {A : Type} (R : A -> A -> Prop) (l1 l2 : list A) :
  StronglySorted R l1 -> StronglySorted R l2 ->
  (forall x y, In x l1 -> In y l2 -> R x y) -> StronglySorted R (l1 ++ l2).
Proof.
  induction l1 as [|x l1 IH]; intros H1 H2 H; simpl; [exact H2|].
  apply StronglySorted_inv in H1 as [H1 Hx]; constructor.
  - apply IH; [exact H1 | exact H2 |]; intros a b Ha Hb; apply H; [right|]; assumption.
  - apply Forall_app; split; [exact Hx|].
    apply Forall_forall; intros y Hy; apply H; [left; reflexivity | exact Hy].
Qed.

Lemma StronglySorted_app_inv {A : Type} (R : A -> A -> Prop) (l1 l2 : list A) :
  StronglySorted R (l1 ++ l2) ->
  StronglySorted R l1 /\ StronglySorted R l2 /\
  (forall x y, In x l1 -> In y l2 -> R x y).
Proof.
  induction l1 as [|x l1 IH]; simpl; intros H.
  - split; [constructor|split; [exact H|intros x y []]].
  - apply StronglySorted_inv in H as [H Hx]; destruct (IH H) as [S1 [S2 S12]].
    rewrite Forall_app in Hx; destruct Hx as [Hx1 Hx2].
    split; [constructor; assumption|split; [exact S2|]].
    intros a b [<-|Ha] Hb; [rewrite Forall_forall in Hx2; apply Hx2; exact Hb|].
    apply S12; assumption.
Qed.

Lemma StronglySorted_map {A B : Type} (R : B -> B -> Prop) (f : A -> B) (l : list A) :
  StronglySorted (fun x y => R (f x) (f y)) l -> StronglySorted R (map f l).
Proof.
  induction l as [|x l IH]; simpl; intros H; [constructor|].
  apply StronglySorted_inv in H as [H Hx]; constructor; [apply IH; exact H|].
  apply Forall_map; exact Hx.
Qed.

Lemma StronglySorted_impl {A : Type} (R R' : A -> A -> Prop) (l : list A) :
  (forall x y, In x l -> In y l -> R x y -> R' x y) ->
  StronglySorted R l -> StronglySorted R' l.
Proof.
  induction l as [|x l IH]; intros Himp H; [constructor|].
  apply StronglySorted_inv in H as [H Hx]; constructor.
  - apply IH; [|exact H]; intros a b Ha Hb; apply Himp; right; assumption.
  - rewrite Forall_forall in *; intros y Hy; apply Himp;
      [left; reflexivity | right; exact Hy | apply Hx; exact Hy].
Qed.

Lemma StronglySorted_rev {A : Type} (R : A -> A -> Prop) (l : list A) :
  StronglySorted R l -> StronglySorted (fun x y => R y x) (rev l).
Proof.
  induction l as [|x l IH]; simpl; intros H; [constructor|].
  apply StronglySorted_inv in H as [H Hx]; apply StronglySorted_app.
  - apply IH; exact H.
  - repeat constructor.
  - intros a b Ha [<-|[]]; rewrite Forall_forall in Hx; apply Hx, in_rev; exact Ha.
Qed.

Lemma StronglySorted_firstn {A : Type} (R : A -> A -> Prop) (n : nat) (l : list A) :
  StronglySorted R l -> StronglySorted R (firstn n l).
Proof.
  intros H; rewrite <- (firstn_skipn n l) in H.
  apply StronglySorted_app_inv in H as [H _]; exact H.
Qed.

Lemma StronglySorted_all {A : Type} (R : A -> A -> Prop) (l : list A) :
  (forall x y, In x l -> In y l -> R x y) -> StronglySorted R l.
Proof.
  induction l as [|x l IH]; intros H; constructor.
  - apply IH; intros a b Ha Hb; apply H; right; assumption.
  - apply Forall_forall; intros y Hy; apply H; [left; reflexivity | right; exact Hy].
Qed.

Lemma map_nth_seq {A : Type} (l : list A) (d : A) :
  map (fun k => nth k l d) (seq 0 (length l)) = l.
Proof.
  induction l as [|x l IH]; [reflexivity|].
  simpl; f_equal; rewrite <- seq_shift, map_map; exact IH.
Qed.

Lemma non_nan_nan_perm (s : nat) (items : list (option Q)) :
  Permutation (map fst (non_nan_from s items) ++ nan_from s items) (seq s (length items)).
Proof.
  revert s; induction items as [|[q|] items IH]; intros s; simpl; [constructor| |].
  - constructor; apply IH.
  - rewrite <- Permutation_middle; constructor; apply IH.
Qed.

Lemma non_nan_from_In (s : nat) (items : list (option Q)) (i : nat) (q : Q) :
  In (i, q) (non_nan_from s items) -> (s <= i)%nat /\ nth (i - s) items None = Some q.
Proof.
  revert s; induction items as [|[q'|] items IH]; intros s; simpl; [intros []| |].
  - intros [[= <- <-]|H]; [rewrite Nat.sub_diag; split; [lia|reflexivity]|].
    destruct (IH (S s) H) as [Hle Hn]; split; [lia|].
    replace (i - s)%nat with (S (i - S s)) by lia; exact Hn.
  - intros H; destruct (IH (S s) H) as [Hle Hn]; split; [lia|].
    replace (i - s)%nat with (S (i - S s)) by lia; exact Hn.
Qed.

Lemma nan_from_In (s : nat) (items : list (option Q)) (i : nat) :
  In i (nan_from s items) -> (s <= i)%nat /\ nth (i - s) items None = None.
Proof.
  revert s; induction items as [|[q'|] items IH]; intros s; simpl; [intros []| |].
  - intros H; destruct (IH (S s) H) as [Hle Hn]; split; [lia|].
    replace (i - s)%nat with (S (i - S s)) by lia; exact Hn.
  - intros [<-|H]; [rewrite Nat.sub_diag; split; [lia|reflexivity]|].
    destruct (IH (S s) H) as [Hle Hn]; split; [lia|].
    replace (i - s)%nat with (S (i - S s)) by lia; exact Hn.
Qed.

Lemma nargsort_desc_perm (argsort : list Q -> list nat) (Hf : argsort_spec argsort)
    (items : list (option Q)) :
  Permutation (nargsort argsort false items) (seq 0 (length items)).
Proof.
  unfold nargsort; simpl.
  set (nn := non_nan_from 0 items).
  rewrite <- (non_nan_nan_perm 0 items); fold nn.
  apply Permutation_app_tail.
  rewrite <- Permutation_rev.
  destruct (Hf (map snd (rev nn))) as [Hp _].
  rewrite (Permutation_map _ Hp), length_map.
  rewrite <- (map_map (fun k => nth k (rev nn) (0%nat, 0)) fst), map_nth_seq.
  rewrite map_rev; symmetry; apply Permutation_rev.
Qed.

Lemma nargsort_desc_sorted (argsort : list Q -> list nat) (Hf : argsort_spec argsort)
    (items : list (option Q)) :
  StronglySorted (fun i j => desc_nan_last (nth i items None) (nth j items None))
                 (nargsort argsort false items).
Proof.
  unfold nargsort; simpl.
  set (nn := non_nan_from 0 items).
  set (vs := map snd (rev nn)).
  set (g := fun k => fst (nth k (rev nn) (0%nat, 0))).
  destruct (Hf vs) as [Hp Hs].
  assert (Hlt : forall k, In k (argsort vs) -> (k < length vs)%nat).
  { intros k Hk; apply (Permutation_in _ Hp), in_seq in Hk; lia. }
  assert (Hval : forall k, (k < length vs)%nat -> nth (g k) items None = Some (nth k vs 0)).
  { intros k Hk; unfold g, vs.
    unfold vs in Hk; rewrite length_map in Hk.
    pose proof (nth_In (rev nn) (0%nat, 0) Hk) as Hin.
    apply in_rev in Hin; fold nn in Hin.
    destruct (nth k (rev nn) (0%nat, 0)) as [i q] eqn:E.
    apply non_nan_from_In in Hin as [_ Hn]; rewrite Nat.sub_0_r in Hn; simpl; rewrite Hn.
    f_equal; change 0 with (snd (0%nat, 0)); rewrite map_nth, E; reflexivity. }
  apply StronglySorted_app.
  - apply (StronglySorted_rev (fun i j => desc_nan_last (nth j items None) (nth i items None))).
    apply StronglySorted_map.
    refine (StronglySorted_impl _ _ _ _ Hs); intros k l Hk Hl H; simpl.
    rewrite (Hval k (Hlt k Hk)), (Hval l (Hlt l Hl)); exact H.
  - apply StronglySorted_all; intros x y Hx Hy.
    apply nan_from_In in Hx as [_ Hx]; apply nan_from_In in Hy as [_ Hy].
    rewrite Nat.sub_0_r in Hx, Hy; rewrite Hx, Hy; exact I.
  - intros x y Hx Hy.
    apply nan_from_In in Hy as [_ Hy]; rewrite Nat.sub_0_r in Hy; rewrite Hy.
    apply in_rev, in_map_iff in Hx as [k [<- Hk]].
    rewrite (Hval k (Hlt k Hk)); exact I.
Qed.

Lemma take_rows_map {A : Type} (idx : list nat) (xs : list A) (d : A) :
  (forall i, In i idx -> (i < length xs)%nat) ->
  take_rows idx xs = map (fun i => nth i xs d) idx.
Proof.
  induction idx as [|i idx IH]; intros H; [reflexivity|].
  unfold take_rows in *; simpl.
  rewrite (nth_error_nth' xs d (H i (or_introl eq_refl))); simpl; f_equal.
  apply IH; intros j Hj; apply H; right; exact Hj.
Qed.

(** [sort_values(key, ascending=False)] returns its rows reordered, keys
    descending and NaN keys last. *)
Lemma sort_values_desc {A : Type} (argsort : list Q -> list nat) (Hf : argsort_spec argsort)
    (key : A -> option Q) (xs : list A) :
  Permutation (sort_values argsort key false xs) xs /\
  StronglySorted (fun x y => desc_nan_last (key x) (key y)) (sort_values argsort key false xs).
Proof.
  destruct xs as [|d xs'] eqn:Exs.
  { unfold sort_values; rewrite take_rows_nil; split; constructor. }
  rewrite <- Exs.
  pose proof (nargsort_desc_perm argsort Hf (map key xs)) as Hp.
  pose proof (nargsort_desc_sorted argsort Hf (map key xs)) as Hs.
  rewrite length_map in Hp.
  assert (Hlt : forall i, In i (nargsort argsort false (map key xs)) -> (i < length xs)%nat).
  { intros i Hi; apply (Permutation_in _ Hp), in_seq in Hi; lia. }
  unfold sort_values; rewrite (take_rows_map _ _ d Hlt); split.
  - rewrite (Permutation_map _ Hp), map_nth_seq; reflexivity.
  - apply StronglySorted_map.
    refine (StronglySorted_impl _ _ _ _ Hs); intros i j Hi Hj H; simpl in H |- *.
    pose proof (Hlt i Hi) as Li; pose proof (Hlt j Hj) as Lj.
    rewrite <- (length_map key xs) in Li, Lj.
    rewrite (nth_indep _ None (key d) Li), (nth_indep _ None (key d) Lj) in H.
    rewrite !map_nth in H; exact H.
Qed.

Lemma insert_index_perm (v : list Q) (i : nat) (l : list nat) :
  Permutation (insert_index v i l) (i :: l).
Proof.
  induction l as [|j l IH]; simpl; [reflexivity|].
  destruct (Qle_bool (nth i v 0) (nth j v 0)); [reflexivity|].
  rewrite IH; apply perm_swap.
Qed.

Lemma insert_index_hd (v : list Q) (i x : nat) (l : list nat) :
  HdRel (fun a b => nth a v 0 <= nth b v 0) x l -> nth x v 0 <= nth i v 0 ->
  HdRel (fun a b => nth a v 0 <= nth b v 0) x (insert_index v i l).
Proof.
  destruct l as [|j l]; simpl; intros H Hx; [constructor; exact Hx|].
  destruct (Qle_bool (nth i v 0) (nth j v 0)); constructor; [exact Hx|].
  inversion H; assumption.
Qed.

Lemma insert_index_sorted (v : list Q) (i : nat) (l : list nat) :
  Sorted (fun a b => nth a v 0 <= nth b v 0) l ->
  Sorted (fun a b => nth a v 0 <= nth b v 0) (insert_index v i l).
Proof.
  induction l as [|j l IH]; simpl; intros H; [repeat constructor|].
  destruct (Qle_bool (nth i v 0) (nth j v 0)) eqn:E.
  - constructor; [exact H|]; constructor; apply Qle_bool_iff; exact E.
  - apply Sorted_inv in H as [H Hj]; constructor; [apply IH; exact H|].
    apply insert_index_hd; [exact Hj|].
    apply Qlt_le_weak, Qnot_le_lt; intros C; apply Qle_bool_iff in C; congruence.
Qed.

(** [insertion_argsort] meets [argsort_spec]. *)
Lemma insertion_argsort_spec : argsort_spec insertion_argsort.
Proof.
  intros v; unfold insertion_argsort; split.
  - induction (seq 0 (length v)) as [|i l IH]; simpl; [constructor|].
    rewrite insert_index_perm; constructor; exact IH.
  - apply Sorted_StronglySorted; [intros a b c; apply Qle_trans|].
    induction (seq 0 (length v)) as [|i l IH]; simpl; [constructor|].
    apply insert_index_sorted; exact IH.
Qed.

(** ** Fastest Lap: the top-10 table *)

(** C7 (counterexample): two [rank == 1] rows with the same speed; the page
    shows its top table, and that table is not strictly descending. *)
Lemma top_speeds_tie_not_strict :
  In (WSpeedRows (top_speeds NumpyQuicksort.np_argsort (fastest_laps py_float tie_table)))
     (fastest_lap_page NumpyQuicksort.np_argsort py_float tie_table) /\
  ~ strictly_desc (top_speeds NumpyQuicksort.np_argsort (fastest_laps py_float tie_table)).
Proof.
  split.
  - unfold fastest_lap_page; simpl; right; right; left; reflexivity.
  - unfold strictly_desc; vm_compute; intros H.
    inversion H as [|x l _ Hx]; subst.
    inversion Hx as [|y l' [a [b [Ea [Eb Hlt]]]] _]; subst.
    injection Ea as <-; injection Eb as <-.
    apply (Qlt_irrefl (200 # 1)); exact Hlt.
Qed.

(** C7 (amended): when the column exists and some [rank == 1] row has a
    numeric speed, the page shows the table [top_speeds]; any table the page
    shows has [min(10, number of rank == 1 rows)] rows (rows with a missing
    speed counted), lists rows with a numeric speed first in non-increasing
    speed order and rows with a missing speed after them, and is drawn from
    the [rank == 1] rows, each at most once. *)
Theorem fastest_lap_top_speeds (argsort : list Q -> list nat) (Hf : argsort_spec argsort)
    (to_float : string -> option Q) (t : Table) :
  let fl := fastest_laps to_float t in
  (has_fastestLapSpeed t = true -> (exists p, In p fl /\ snd p <> None) ->
     In (WSpeedRows (top_speeds argsort fl)) (fastest_lap_page argsort to_float t)) /\
  (forall ts, In (WSpeedRows ts) (fastest_lap_page argsort to_float t) ->
     ts = top_speeds argsort fl /\
     length ts = Nat.min 10 (length fl) /\
     StronglySorted (fun p q => desc_nan_last (snd p) (snd q)) ts /\
     exists rest, Permutation (ts ++ rest) fl).
Proof.
  cbv zeta; set (fl := fastest_laps to_float t); split.
  - intros Hcol [p [Hp Hs]]; unfold fastest_lap_page; rewrite Hcol; fold fl; simpl.
    replace ((match fl with [] => true | _ => false end)
             || forallb (fun p0 => is_nan (snd p0)) fl) with false.
    + right; right; left; reflexivity.
    + symmetry; apply orb_false_iff; split; [destruct fl; [destruct Hp|reflexivity]|].
      apply not_true_iff_false; intros Hall.
      rewrite forallb_forall in Hall; specialize (Hall p Hp).
      destruct (snd p); [discriminate | apply Hs; reflexivity].
  - intros ts Hin; unfold fastest_lap_page in Hin; fold fl in Hin.
    destruct (has_fastestLapSpeed t); simpl in Hin.
    2: destruct Hin as [H|[H|[]]]; discriminate.
    destruct ((match fl with [] => true | _ => false end)
              || forallb (fun p0 => is_nan (snd p0)) fl); simpl in Hin.
    { destruct Hin as [H|[H|[]]]; discriminate. }
    destruct Hin as [H|[H|[H|[H|[H|[H|[H|[H|[H|[]]]]]]]]]]; try discriminate.
    injection H as <-.
    destruct (sort_values_desc argsort Hf snd fl) as [Hp Hs].
    unfold top_speeds, head; split; [reflexivity|split; [|split]].
    + rewrite length_firstn, (Permutation_length Hp); reflexivity.
    + apply StronglySorted_firstn; exact Hs.
    + exists (skipn 10 (sort_values argsort snd false fl)); rewrite firstn_skipn; exact Hp.
Qed.

(** ** Overview: top constructors by wins *)

Lemma insert_key_str_In (x y : string) (l : list string) :
  In y (insert_key_str x l) <-> x = y \/ In y l.
Proof.
  induction l as [|z l IH]; simpl; [tauto|].
  destruct (String.compare x z) eqn:E; simpl.
  - apply String.compare_eq_iff in E; subst; tauto.
  - tauto.
  - rewrite IH; tauto.
Qed.

Lemma group_keys_str_In (k : string) (xs : list (option string)) :
  In k (group_keys_str xs) <-> In (Some k) xs.
Proof.
  induction xs as [|[x|] xs IH]; simpl; [tauto| |].
  - rewrite insert_key_str_In, IH; split; [intros [->|H]; auto|].
    intros [[= ->]|H]; auto.
  - rewrite IH; split; [auto|intros [H|H]; [discriminate|exact H]].
Qed.

(** Membership in [constructor_wins]: the keys are the constructors with a
    win, each with its number of winning rows. *)
Lemma constructor_wins_In (df : Table) (c : string) (n : Z) :
  In (c, n) (constructor_wins df) <->
  n = Z.of_nat (length (filter (fun r => opt_str_eqb (constructor_name r) c
                                         && (positionOrder r =? 1)%Z) (rows df))) /\
  (1 <= n)%Z.
Proof.
  unfold constructor_wins; cbv zeta; rewrite in_map_iff.
  set (cnt := fun c => Z.of_nat (length (filter
           (fun r => opt_str_eqb (constructor_name r) c)
           (filter (fun r => (positionOrder r =? 1)%Z) (rows df))))).
  assert (Hc : Z.of_nat (length (filter (fun r => opt_str_eqb (constructor_name r) c
                         && (positionOrder r =? 1)%Z) (rows df))) = cnt c).
  { unfold cnt; rewrite length_filter_andb; do 2 f_equal.
    apply filter_ext; intros r; apply andb_comm. }
  rewrite Hc.
  assert (Hk : In c (group_keys_str (map constructor_name
                 (filter (fun r => (positionOrder r =? 1)%Z) (rows df)))) <-> (1 <= cnt c)%Z).
  { rewrite group_keys_str_In, in_map_iff; unfold cnt; rewrite length_filter_andb; split.
    - intros [r [Hr Hin]].
      assert (Hf : In r (filter (fun r => (positionOrder r =? 1)%Z
                                         && opt_str_eqb (constructor_name r) c) (rows df))).
      { apply filter_In in Hin as [Hin Hp]; apply filter_In; split; [exact Hin|].
        rewrite Hp; apply opt_str_eqb_true; exact Hr. }
      revert Hf; generalize (filter (fun r => (positionOrder r =? 1)%Z
                                         && opt_str_eqb (constructor_name r) c) (rows df)).
      intros [|x l] Hf; [destruct Hf|simpl; lia].
    - destruct (filter (fun r => (positionOrder r =? 1)%Z
                                 && opt_str_eqb (constructor_name r) c) (rows df))
        as [|r l] eqn:E; intros H; [simpl in H; lia|].
      assert (Hr : In r (r :: l)) by (left; reflexivity).
      rewrite <- E in Hr; apply filter_In in Hr as [Hin Hp].
      apply andb_true_iff in Hp as [Hp Hn].
      exists r; split; [apply opt_str_eqb_true; exact Hn|].
      apply filter_In; split; assumption. }
  split.
  - intros [k [[= Ek En] Hin]]; subst k n; split; [reflexivity|].
    apply Hk; exact Hin.
  - intros [-> H]; exists c; split; [reflexivity|apply Hk; exact H].
Qed.

(** C5 (counterexample): seventeen constructors tied at one win each.  With
    numpy's portable quicksort the ten constructors shown are not the first
    ten in grouping (alphabetical) order: ties are not kept in grouping order. *)
Lemma top_constructors_ties_not_grouping_order :
  top_constructors NumpyQuicksort.np_argsort seventeen_winners
  = [("A", 1); ("J", 1); ("P", 1); ("O", 1); ("N", 1);
     ("M", 1); ("L", 1); ("K", 1); ("I", 1); ("B", 1)]%Z /\
  top_constructors NumpyQuicksort.np_argsort seventeen_winners
  <> spec_top_constructors seventeen_winners.
Proof. split; vm_compute; [reflexivity | discriminate]. Qed.

(** C5 (amended): for any argsort meeting [argsort_spec] the top-constructors
    table has at most 10 entries, in non-increasing win count, each the
    number of filtered rows of that constructor with [positionOrder = 1]
    (at least one); a constructor with a win that is left out has no more
    wins than any listed one, and then 10 are listed.  The order among equal
    counts is the sort's.  On the spec's three-row example the result is
    [Blue: 1, Red: 1]. *)
Theorem top_constructors_by_wins (argsort : list Q -> list nat) (Hf : argsort_spec argsort)
    (df : Table) :
  let out := top_constructors argsort df in
  let wins c := Z.of_nat (length (filter (fun r => opt_str_eqb (constructor_name r) c
                                                   && (positionOrder r =? 1)%Z) (rows df))) in
  (length out <= 10)%nat /\
  StronglySorted (fun p q => (snd q <= snd p)%Z) out /\
  (forall c n, In (c, n) out -> n = wins c /\ (1 <= n)%Z) /\
  (forall c, (1 <= wins c)%Z -> ~ In c (map fst out) ->
     length out = 10%nat /\ forall p, In p out -> (wins c <= snd p)%Z) /\
  top_constructors NumpyQuicksort.np_argsort example_table = [("Blue", 1); ("Red", 1)]%Z.
Proof.
  cbv zeta.
  destruct (sort_values_desc argsort Hf (fun p => Some (QZ (snd p))) (constructor_wins df))
    as [Hp Hs].
  set (s := sort_values argsort (fun p => Some (QZ (snd p))) false (constructor_wins df))
    in Hp, Hs.
  assert (Hs' : StronglySorted (fun p q => (snd q <= snd p)%Z) s).
  { refine (StronglySorted_impl _ _ _ _ Hs); intros p q _ _ H; simpl in H.
    rewrite Zle_Qle; exact H. }
  unfold top_constructors, head; fold s.
  split; [rewrite length_firstn; lia|].
  split; [apply StronglySorted_firstn; exact Hs'|].
  split; [|split; [|vm_compute; reflexivity]].
  - intros c n Hin; apply constructor_wins_In.
    apply (Permutation_in _ Hp); rewrite <- (firstn_skipn 10 s).
    apply in_or_app; left; exact Hin.
  - intros c Hc Hnot.
    assert (Hin : In (c, Z.of_nat (length (filter (fun r => opt_str_eqb (constructor_name r) c
                                   && (positionOrder r =? 1)%Z) (rows df)))) s).
    { apply (Permutation_in _ (Permutation_sym Hp)), constructor_wins_In.
      split; [reflexivity|exact Hc]. }
    rewrite <- (firstn_skipn 10 s) in Hin, Hs'.
    apply StronglySorted_app_inv in Hs' as [_ [_ Hcross]].
    apply in_app_or in Hin as [Hin|Hin].
    { exfalso; apply Hnot, in_map_iff; eexists; split; [|exact Hin]; reflexivity. }
    split.
    + assert (Hl : (0 < length (skipn 10 s))%nat).
      { destruct (skipn 10 s); [destruct Hin|simpl; lia]. }
      rewrite length_skipn in Hl; rewrite length_firstn; lia.
    + intros p Hp'; exact (Hcross p _ Hp' Hin).
Qed.

(** * Witnesses: the theorems with hypotheses applied at concrete inputs *)

(** C4: the loaded example table (no [rank] column) is returned unchanged by
    the full year range [2020, 2021] and the two sentinels. *)
Lemma full_range_sentinels_identity_witness :
  filtered_df (load_data (mkRawTable false example_table)) 2020 2021
    "All Countries" ["All Circuits"]
  = load_data (mkRawTable false example_table).
Proof.
  refine (proj1 (full_range_sentinels_identity (mkRawTable false example_table)
                   2020 2021 _ _)); vm_compute; reflexivity.
Defined.

(** C8: selecting "Italy" on the example table keeps a non-empty set of rows. *)
Lemma filter_country_exact_witness :
  rows (filter_country "Italy" example_table) <> [].
Proof.
  destruct (filter_country_exact example_table "Italy") as [_ [_ [Hne _]]];
    [discriminate|].
  apply Hne; exists (mk 2020 (Some "Italy") (Some "Monza") "Red" 1 CNA).
  split; [left; reflexivity | reflexivity].
Defined.

(** C3: the year range [1990, 1990] matches no example row; the Fastest Lap
    page then reports no data. *)
Lemma empty_filter_views_witness :
  reports_no_data
    (render_page NumpyQuicksort.np_argsort py_float example_table
       (filtered_df example_table 1990 1990 "All Countries" ["All Circuits"]) FastestLap)
  = true.
Proof.
  refine (proj1 (proj2 (empty_filter_views NumpyQuicksort.np_argsort py_float example_table
                          1990 1990 "All Countries" ["All Circuits"] _))).
  intros r Hr; simpl in Hr; destruct Hr as [<-|[<-|[<-|[]]]]; reflexivity.
Defined.

(** C7: with the stable [insertion_argsort], the tie table's top table has
    both [rank == 1] rows. *)
Lemma fastest_lap_top_speeds_witness :
  length (top_speeds insertion_argsort (fastest_laps py_float tie_table)) = 2%nat.
Proof.
  destruct (fastest_lap_top_speeds insertion_argsort insertion_argsort_spec py_float tie_table)
    as [Hshow Hprops].
  assert (Hex : exists p, In p (fastest_laps py_float tie_table) /\ snd p <> None).
  { exists (mk 2020 (Some "Italy") (Some "Monza") "Red" 1 (CNum 200), Some 200).
    split; [left; reflexivity | discriminate]. }
  destruct (Hprops _ (Hshow eq_refl Hex)) as [_ [Hlen _]].
  rewrite Hlen; reflexivity.
Defined.

(** C5: with the stable [insertion_argsort], the example table's
    top-constructors table has at most 10 entries, in non-increasing win
    count. *)
Lemma top_constructors_by_wins_witness :
  (length (top_constructors insertion_argsort example_table) <= 10)%nat /\
  StronglySorted (fun p q => (snd q <= snd p)%Z)
    (top_constructors insertion_argsort example_table).
Proof.
  destruct (top_constructors_by_wins insertion_argsort insertion_argsort_spec example_table)
    as [Hlen [Hs _]].
  exact (conj Hlen Hs).
Defined.

(** * Further properties of the dashboard *)

(** ** Sorted distinct keys *)

Lemma str_lt_trans (a b c : string) : str_lt a b -> str_lt b c -> str_lt a c.
Proof.
  unfold str_lt; rewrite !String_as_OT.cmp_lt; apply String_as_OT.lt_trans.
Qed.

Lemma str_lt_irrefl (a : string) : ~ str_lt a a.
Proof.
  unfold str_lt; assert (E : String.compare a a = Eq) by (apply (proj2 (String_as_OT.cmp_eq a a)); reflexivity).
  rewrite E; discriminate.
Qed.

Lemma str_gt_lt (a b : string) : String.compare a b = Gt -> str_lt b a.
Proof. intros H; unfold str_lt; rewrite String.compare_antisym, H; reflexivity. Qed.

Lemma StronglySorted_NoDup {A : Type} (R : A -> A -> Prop) (l : list A) :
  (forall x, ~ R x x) -> StronglySorted R l -> NoDup l.
Proof.
  intros Hirr; induction 1 as [|x l _ IH Hx]; constructor; [|exact IH].
  intros Hin; rewrite Forall_forall in Hx; exact (Hirr x (Hx x Hin)).
Qed.

Lemma insert_key_str_sorted (x : string) (l : list string) :
  StronglySorted str_lt l -> StronglySorted str_lt (insert_key_str x l).
Proof.
  induction 1 as [|y l Hl IH Hy]; simpl; [repeat constructor|].
  destruct (String.compare x y) eqn:E.
  - constructor; assumption.
  - constructor; [constructor; assumption|].
    constructor; [exact E|]; rewrite Forall_forall in Hy |- *.
    intros z Hz; exact (str_lt_trans _ _ _ E (Hy z Hz)).
  - constructor; [exact IH|]; rewrite Forall_forall in Hy |- *.
    intros z Hz; apply insert_key_str_In in Hz as [<-|Hz]; [apply str_gt_lt; exact E|].
    exact (Hy z Hz).
Qed.

Lemma group_keys_str_sorted (xs : list (option string)) :
  StronglySorted str_lt (group_keys_str xs).
Proof.
  induction xs as [|[x|] xs IH]; simpl; [constructor| |exact IH].
  apply insert_key_str_sorted; exact IH.
Qed.

Lemma insert_key_Z_In (x y : Z) (l : list Z) :
  In y (insert_key_Z x l) <-> x = y \/ In y l.
Proof.
  induction l as [|z l IH]; simpl; [tauto|].
  destruct (Z.ltb_spec x z); simpl; [tauto|].
  destruct (Z.eqb_spec x z); simpl; [subst; tauto|].
  rewrite IH; tauto.
Qed.

Lemma group_keys_Z_In (k : Z) (xs : list Z) : In k (group_keys_Z xs) <-> In k xs.
Proof.
  induction xs as [|x xs IH]; simpl; [tauto|].
  rewrite insert_key_Z_In, IH; tauto.
Qed.

Lemma insert_key_Z_sorted (x : Z) (l : list Z) :
  StronglySorted Z.lt l -> StronglySorted Z.lt (insert_key_Z x l).
Proof.
  induction 1 as [|y l Hl IH Hy]; simpl; [repeat constructor|].
  destruct (Z.ltb_spec x y).
  - constructor; [constructor; assumption|].
    constructor; [assumption|]; rewrite Forall_forall in Hy |- *.
    intros z Hz; specialize (Hy z Hz); lia.
  - destruct (Z.eqb_spec x y); [constructor; assumption|].
    constructor; [exact IH|]; rewrite Forall_forall in Hy |- *.
    intros z Hz; apply insert_key_Z_In in Hz as [<-|Hz]; [lia|exact (Hy z Hz)].
Qed.

Lemma group_keys_Z_sorted (xs : list Z) : StronglySorted Z.lt (group_keys_Z xs).
Proof.
  induction xs as [|x xs IH]; simpl; [constructor|].
  apply insert_key_Z_sorted; exact IH.
Qed.

Lemma insert_key_str_length (x : string) (l : list string) :
  (length (insert_key_str x l) <= S (length l))%nat.
Proof.
  induction l as [|y l IH]; simpl; [lia|].
  destruct (String.compare x y); simpl; lia.
Qed.

Lemma nunique_str_le (xs : list (option string)) : (nunique_str xs <= length xs)%nat.
Proof.
  unfold nunique_str; induction xs as [|[x|] xs IH]; simpl; [lia| |lia].
  pose proof (insert_key_str_length x (group_keys_str xs)); lia.
Qed.

Lemma insert_key_Z_length (x : Z) (l : list Z) :
  (1 <= length (insert_key_Z x l) <= S (length l))%nat.
Proof.
  induction l as [|y l IH]; simpl; [lia|].
  destruct (x <? y)%Z; simpl; [lia|]; destruct (x =? y)%Z; simpl; lia.
Qed.

Lemma nunique_Z_bounds (xs : list Z) :
  xs <> [] -> (1 <= nunique_Z xs <= length xs)%nat.
Proof.
  unfold nunique_Z; intros Hne; induction xs as [|x xs IH]; [congruence|]; simpl.
  pose proof (insert_key_Z_length x (group_keys_Z xs)).
  destruct xs as [|y xs']; [simpl in *; lia|].
  assert (length (group_keys_Z (y :: xs')) <= length (y :: xs'))%nat
    by (apply IH; discriminate).
  simpl in *; lia.
Qed.

Lemma col_min_In (xs : list Z) (m : Z) : col_min xs = Some m -> In m xs.
Proof.
  destruct xs as [|x xs]; simpl; [discriminate|]; intros [= <-].
  revert x; induction xs as [|y xs IH]; intros x; simpl; [left; reflexivity|].
  destruct (IH (Z.min x y)) as [E|H].
  - destruct (Z.min_spec x y) as [[_ Ex]|[_ Ex]]; rewrite <- E, Ex; auto with datatypes.
  - right; right; exact H.
Qed.

Lemma col_max_In (xs : list Z) (m : Z) : col_max xs = Some m -> In m xs.
Proof.
  destruct xs as [|x xs]; simpl; [discriminate|]; intros [= <-].
  revert x; induction xs as [|y xs IH]; intros x; simpl; [left; reflexivity|].
  destruct (IH (Z.max x y)) as [E|H].
  - destruct (Z.max_spec x y) as [[_ Ex]|[_ Ex]]; rewrite <- E, Ex; auto with datatypes.
  - right; right; exact H.
Qed.

Lemma StronglySorted_last {A : Type} (R : A -> A -> Prop) (l : list A) (z : A) :
  StronglySorted R (l ++ [z]) -> forall y, In y l -> R y z.
Proof.
  induction l as [|x l IH]; simpl; intros H y Hy; [destruct Hy|].
  inversion H as [|? ? Hs Hx]; subst.
  destruct Hy as [<-|Hy]; [|exact (IH Hs y Hy)].
  rewrite Forall_forall in Hx; apply Hx, in_or_app; right; left; reflexivity.
Qed.

Lemma text_options_ok (col : Row -> option string) (df : Table) :
  StronglySorted str_lt (group_keys_str (map col (rows df))) /\
  forall s, In s (group_keys_str (map col (rows df))) <->
            exists r, In r (rows df) /\ col r = Some s.
Proof.
  split; [apply group_keys_str_sorted|intros s].
  rewrite group_keys_str_In, in_map_iff; split; intros [r [H1 H2]]; exists r; auto.
Qed.

Lemma col_min_max_sorted (xs l : list Z) :
  StronglySorted Z.lt l -> (forall y, In y l <-> In y xs) ->
  col_min xs = hd_error l /\ col_max xs = hd_error (rev l).
Proof.
  intros Hs Hm.
  destruct xs as [|x xs'].
  { destruct l as [|y l']; [split; reflexivity|].
    exfalso; apply (proj1 (Hm y)); left; reflexivity. }
  set (xs := x :: xs') in Hm |- *.
  assert (Em : col_min xs = Some (fold_left Z.min xs' x)) by reflexivity.
  assert (EM : col_max xs = Some (fold_left Z.max xs' x)) by reflexivity.
  set (m := fold_left Z.min xs' x) in Em |- *.
  set (M := fold_left Z.max xs' x) in EM |- *.
  rewrite Em, EM.
  pose proof (col_min_In _ _ Em) as Im; pose proof (col_max_In _ _ EM) as IM.
  split.
  - destruct l as [|y l']; [apply Hm in Im; destruct Im|]; simpl; f_equal.
    inversion Hs as [|? ? _ Hy]; subst.
    assert (Hy0 : In y xs) by (apply Hm; left; reflexivity).
    pose proof (col_min_le _ _ Em y Hy0).
    apply Hm in Im; destruct Im as [->|Im]; [reflexivity|].
    rewrite Forall_forall in Hy; specialize (Hy m Im); lia.
  - destruct (rev l) as [|z l''] eqn:Er.
    + apply Hm, in_rev in IM; rewrite Er in IM; destruct IM.
    + simpl; f_equal.
      assert (El : l = (rev l'' ++ [z])%list) by (rewrite <- (rev_involutive l), Er; reflexivity).
      assert (Hz : In z xs) by (apply Hm; rewrite El; apply in_or_app; right; left; reflexivity).
      pose proof (col_max_ge _ _ EM z Hz).
      apply Hm in IM; rewrite El in IM; apply in_app_or in IM as [IM|[<-|[]]]; [|reflexivity].
      rewrite El in Hs; pose proof (StronglySorted_last _ _ _ Hs M IM); lia.
Qed.

Lemma years_min_max (df : Table) :
  col_min (map year (rows df)) = hd_error (years df) /\
  col_max (map year (rows df)) = hd_error (rev (years df)).
Proof.
  apply col_min_max_sorted; [apply group_keys_Z_sorted|].
  intros y; apply group_keys_Z_In.
Qed.

(** ** Sidebar *)

(** Lines 25-29: each option list of the sidebar is strictly increasing (no
    value repeated) and holds exactly the values of its column that occur in
    the loaded table, missing values left out. *)
Theorem sidebar_options_sorted_distinct (df : Table) :
  let text_ok (col : Row -> option string) (opts : list string) :=
    StronglySorted str_lt opts /\
    forall s, In s opts <-> exists r, In r (rows df) /\ col r = Some s in
  (StronglySorted Z.lt (years df) /\
   forall y, In y (years df) <-> exists r, In r (rows df) /\ year r = y) /\
  text_ok country (countries df) /\ text_ok circuit_name (circuits df) /\
  text_ok driver_name (drivers df) /\ text_ok constructor_name (constructors df).
Proof.
  cbv zeta; split; [|split; [|split; [|split]]]; try apply text_options_ok.
  split; [apply group_keys_Z_sorted|intros y].
  unfold years; rewrite group_keys_Z_In, in_map_iff.
  split; intros [r [H1 H2]]; exists r; auto.
Qed.

(** Lines 25 and 32-36: the year slider starts at the first and the last of
    its options, so by default it spans the whole year range of the table;
    both ends are missing for an empty table. *)
Theorem default_year_range_spans_options (df : Table) :
  default_year_range df = (hd_error (years df), hd_error (rev (years df))).
Proof.
  unfold default_year_range; destruct (years_min_max df) as [-> ->]; reflexivity.
Qed.

(** Lines 39-62: every country offered by the sidebar keeps at least one row
    of the loaded table, and so does every circuit selection that contains a
    circuit offered by the sidebar (with or without ["All Circuits"]). *)
Theorem sidebar_choices_keep_rows (df : Table) :
  (forall c, In c (countries df) -> rows (filter_country c df) <> []) /\
  (forall cs c, In c cs -> In c (circuits df) -> rows (filter_circuits cs df) <> []).
Proof.
  split.
  - intros c Hc; unfold countries in Hc; apply group_keys_str_In, in_map_iff in Hc
      as [r [Hr Hin]].
    unfold filter_country; destruct (String.eqb c "All Countries"); simpl;
      [intros H; rewrite H in Hin; destruct Hin|].
    intros H; apply (in_nil (a := r)); rewrite <- H; apply filter_In; split; [exact Hin|].
    unfold country_mask; rewrite Hr; apply String.eqb_refl.
  - intros cs c Hcs Hc; unfold circuits in Hc; apply group_keys_str_In, in_map_iff in Hc
      as [r [Hr Hin]].
    unfold filter_circuits; destruct (existsb (String.eqb "All Circuits") cs); simpl;
      [intros H; rewrite H in Hin; destruct Hin|].
    intros H; apply (in_nil (a := r)); rewrite <- H; apply filter_In; split; [exact Hin|].
    unfold circuit_mask; rewrite Hr; apply existsb_exists; exists c.
    split; [exact Hcs|apply String.eqb_refl].
Qed.

(** ** Overview *)

(** Lines 76-79: "Data Rows" is the number of filtered rows; "Drivers" and
    "Constructors" are the numbers of distinct names (missing names not
    counted), never more than the rows; "Years" shows the first and the last
    year present. *)
Theorem overview_metrics (argsort : list Q -> list nat) (filtered : Table) :
  let ws := overview_page argsort filtered in
  metric_value "Data Rows" ws = Some (MCount (length (rows filtered))) /\
  metric_value "Years" ws
    = Some (MYears (hd_error (years filtered)) (hd_error (rev (years filtered)))) /\
  metric_value "Drivers" ws = Some (MCount (length (drivers filtered))) /\
  metric_value "Constructors" ws = Some (MCount (length (constructors filtered))) /\
  (length (drivers filtered) <= length (rows filtered))%nat /\
  (length (constructors filtered) <= length (rows filtered))%nat.
Proof.
  cbv zeta; destruct (years_min_max filtered) as [Hmin Hmax].
  split; [reflexivity|split; [|split; [reflexivity|split; [reflexivity|split]]]].
  - unfold overview_page, metric_value; simpl; rewrite Hmin, Hmax; reflexivity.
  - pose proof (nunique_str_le (map driver_name (rows filtered))) as H.
    unfold nunique_str in H; rewrite length_map in H; exact H.
  - pose proof (nunique_str_le (map constructor_name (rows filtered))) as H.
    unfold nunique_str in H; rewrite length_map in H; exact H.
Qed.

(** Lines 81-83: "Races per Year" has one point per year of the filtered
    rows, in the order of the year options; each point counts the distinct
    [race_id]s of its year, at least one and at most the rows of that year. *)
Theorem races_per_year_points (filtered : Table) :
  map fst (races_per_year filtered) = years filtered /\
  forall y n, In (y, n) (races_per_year filtered) ->
    (1 <= n <= length (rows_of_year y (rows filtered)))%nat.
Proof.
  unfold races_per_year; split.
  - rewrite map_map; apply map_id.
  - intros y n Hin; apply in_map_iff in Hin as [y' [[= <- <-] Hy]].
    apply group_keys_Z_In, in_map_iff in Hy as [r [Ey Hr]].
    rewrite <- (length_map race_id); apply nunique_Z_bounds.
    intros H; apply map_eq_nil in H.
    apply (in_nil (a := r)); rewrite <- H; apply filter_In; split; [exact Hr|].
    apply Z.eqb_eq; exact Ey.
Qed.

(** ** Group totals *)

Lemma length_filter_orb {A : Type} (p q : A -> bool) (xs : list A) :
  (forall a, p a && q a = false) ->
  length (filter (fun a => p a || q a) xs) = (length (filter p xs) + length (filter q xs))%nat.
Proof.
  intros H; induction xs as [|a xs IH]; simpl; [reflexivity|].
  specialize (H a); destruct (p a), (q a); simpl in *; try discriminate; lia.
Qed.


Lemma keys_disjoint {A K : Type} (m : A -> K -> bool) (k : K) (ks : list K) :
  (forall a k1 k2, m a k1 = true -> m a k2 = true -> k1 = k2) -> ~ In k ks ->
  forall a, m a k && existsb (m a) ks = false.
Proof.
  intros Hu Hk a; destruct (m a k) eqn:E; [|reflexivity]; simpl.
  apply not_true_iff_false; intros Hex; apply existsb_exists in Hex as [k' [Hk' Hm]].
  rewrite (Hu a k k' E Hm) in Hk; exact (Hk Hk').
Qed.

(** Group sizes over distinct keys add up to the rows having one of the keys. *)
Lemma sum_over_keys_length {A K : Type} (m : A -> K -> bool) (keys : list K) (xs : list A) :
  (forall a k1 k2, m a k1 = true -> m a k2 = true -> k1 = k2) -> NoDup keys ->
  fold_right Nat.add 0%nat (map (fun k => length (filter (fun a => m a k) xs)) keys)
  = length (filter (fun a => existsb (m a) keys) xs).
Proof.
  intros Hu; induction keys as [|k ks IH]; intros Hnd; simpl.
  - induction xs; simpl; auto.
  - inversion Hnd as [|? ? Hk Hnd']; subst.
    rewrite IH by exact Hnd'; symmetry.
    apply (length_filter_orb (fun a => m a k) (fun a => existsb (m a) ks)).
    apply keys_disjoint; assumption.
Qed.


Lemma opt_str_eqb_uniq (o : option string) (k1 k2 : string) :
  opt_str_eqb o k1 = true -> opt_str_eqb o k2 = true -> k1 = k2.
Proof.
  intros H1 H2; apply opt_str_eqb_true in H1, H2; rewrite H1 in H2; congruence.
Qed.

Lemma group_keys_str_NoDup (xs : list (option string)) : NoDup (group_keys_str xs).
Proof.
  apply (StronglySorted_NoDup str_lt); [apply str_lt_irrefl|apply group_keys_str_sorted].
Qed.


(** Every row whose key is present has it among the sorted group keys. *)
Lemma existsb_group_keys_str {A : Type} (key : A -> option string) (xs : list A) (a : A) :
  In a xs ->
  existsb (fun k => opt_str_eqb (key a) k) (group_keys_str (map key xs))
  = match key a with Some _ => true | None => false end.
Proof.
  intros Ha; destruct (key a) as [k|] eqn:Ek.
  - apply existsb_exists; exists k; split; [|apply String.eqb_refl].
    apply group_keys_str_In; rewrite <- Ek; apply in_map; exact Ha.
  - apply not_true_iff_false; intros H; apply existsb_exists in H as [k [_ Hk]].
    discriminate.
Qed.


(** ** Sorting ascending and taking the head *)

Lemma nargsort_asc_perm (argsort : list Q -> list nat) (Hf : argsort_spec argsort)
    (items : list (option Q)) :
  Permutation (nargsort argsort true items) (seq 0 (length items)).
Proof.
  unfold nargsort; simpl.
  set (nn := non_nan_from 0 items).
  rewrite <- (non_nan_nan_perm 0 items); fold nn.
  apply Permutation_app_tail.
  destruct (Hf (map snd nn)) as [Hp _].
  rewrite (Permutation_map _ Hp), length_map.
  rewrite <- (map_map (fun k => nth k nn (0%nat, 0)) fst), map_nth_seq; reflexivity.
Qed.

Lemma nargsort_asc_sorted (argsort : list Q -> list nat) (Hf : argsort_spec argsort)
    (items : list (option Q)) :
  StronglySorted (fun i j => asc_nan_last (nth i items None) (nth j items None))
                 (nargsort argsort true items).
Proof.
  unfold nargsort; simpl.
  set (nn := non_nan_from 0 items).
  set (vs := map snd nn).
  set (g := fun k => fst (nth k nn (0%nat, 0))).
  destruct (Hf vs) as [Hp Hs].
  assert (Hlt : forall k, In k (argsort vs) -> (k < length vs)%nat).
  { intros k Hk; apply (Permutation_in _ Hp), in_seq in Hk; lia. }
  assert (Hval : forall k, (k < length vs)%nat -> nth (g k) items None = Some (nth k vs 0)).
  { intros k Hk; unfold g, vs.
    unfold vs in Hk; rewrite length_map in Hk.
    pose proof (nth_In nn (0%nat, 0) Hk) as Hin.
    destruct (nth k nn (0%nat, 0)) as [i q] eqn:E.
    apply non_nan_from_In in Hin as [_ Hn]; rewrite Nat.sub_0_r in Hn; simpl; rewrite Hn.
    f_equal; change 0 with (snd (0%nat, 0)); rewrite map_nth, E; reflexivity. }
  apply StronglySorted_app.
  - apply StronglySorted_map.
    refine (StronglySorted_impl _ _ _ _ Hs); intros k l Hk Hl H; simpl.
    rewrite (Hval k (Hlt k Hk)), (Hval l (Hlt l Hl)); exact H.
  - apply StronglySorted_all; intros x y Hx Hy.
    apply nan_from_In in Hx as [_ Hx]; apply nan_from_In in Hy as [_ Hy].
    rewrite Nat.sub_0_r in Hx, Hy; rewrite Hx, Hy; exact I.
  - intros x y Hx Hy.
    apply nan_from_In in Hy as [_ Hy]; rewrite Nat.sub_0_r in Hy; rewrite Hy.
    apply in_map_iff in Hx as [k [<- Hk]].
    rewrite (Hval k (Hlt k Hk)); exact I.
Qed.

(** [sort_values(key, ascending=True)] returns its rows reordered, keys
    ascending and NaN keys last. *)
Lemma sort_values_asc {A : Type} (argsort : list Q -> list nat) (Hf : argsort_spec argsort)
    (key : A -> option Q) (xs : list A) :
  Permutation (sort_values argsort key true xs) xs /\
  StronglySorted (fun x y => asc_nan_last (key x) (key y)) (sort_values argsort key true xs).
Proof.
  destruct xs as [|d xs'] eqn:Exs.
  { unfold sort_values; rewrite take_rows_nil; split; constructor. }
  rewrite <- Exs.
  pose proof (nargsort_asc_perm argsort Hf (map key xs)) as Hp.
  pose proof (nargsort_asc_sorted argsort Hf (map key xs)) as Hs.
  rewrite length_map in Hp.
  assert (Hlt : forall i, In i (nargsort argsort true (map key xs)) -> (i < length xs)%nat).
  { intros i Hi; apply (Permutation_in _ Hp), in_seq in Hi; lia. }
  unfold sort_values; rewrite (take_rows_map _ _ d Hlt); split.
  - rewrite (Permutation_map _ Hp), map_nth_seq; reflexivity.
  - apply StronglySorted_map.
    refine (StronglySorted_impl _ _ _ _ Hs); intros i j Hi Hj H; simpl in H |- *.
    pose proof (Hlt i Hi) as Li; pose proof (Hlt j Hj) as Lj.
    rewrite <- (length_map key xs) in Li, Lj.
    rewrite (nth_indep _ None (key d) Li), (nth_indep _ None (key d) Lj) in H.
    rewrite !map_nth in H; exact H.
Qed.


Lemma zsum_of_nat {A : Type} (f : A -> nat) (l : list A) :
  fold_right Z.add 0%Z (map (fun k => Z.of_nat (f k)) l)
  = Z.of_nat (fold_right Nat.add 0%nat (map f l)).
Proof. induction l as [|k l IH]; simpl; [reflexivity|]; rewrite IH; lia. Qed.

Lemma zsum_perm (l l' : list Z) :
  Permutation l l' -> fold_right Z.add 0%Z l = fold_right Z.add 0%Z l'.
Proof. induction 1; simpl; lia. Qed.

Lemma zsum_app (l l' : list Z) :
  fold_right Z.add 0%Z (l ++ l') = (fold_right Z.add 0%Z l + fold_right Z.add 0%Z l')%Z.
Proof. induction l as [|x l IH]; simpl; [reflexivity|]; rewrite IH; lia. Qed.

Lemma zsum_nonneg (l : list Z) :
  (forall x, In x l -> (0 <= x)%Z) -> (0 <= fold_right Z.add 0%Z l)%Z.
Proof.
  induction l as [|x l IH]; simpl; intros H; [lia|].
  pose proof (H x (or_introl eq_refl)); pose proof (IH (fun y Hy => H y (or_intror Hy))); lia.
Qed.

(** Line 86: the win counts of the constructors add up to the number of
    filtered rows with [positionOrder == 1] and a constructor name.  The bar
    chart shows at most that many wins in total, and all of them when at most
    ten constructors have a win. *)
Theorem constructor_wins_total (argsort : list Q -> list nat) (Hf : argsort_spec argsort)
    (df : Table) :
  let total := Z.of_nat (length (filter (fun r => (positionOrder r =? 1)%Z
                                              && is_some (constructor_name r)) (rows df))) in
  fold_right Z.add 0%Z (map snd (constructor_wins df)) = total /\
  (fold_right Z.add 0%Z (map snd (top_constructors argsort df)) <= total)%Z /\
  ((length (constructor_wins df) <= 10)%nat ->
     fold_right Z.add 0%Z (map snd (top_constructors argsort df)) = total).
Proof.
  cbv zeta.
  assert (Htot : fold_right Z.add 0%Z (map snd (constructor_wins df))
                 = Z.of_nat (length (filter (fun r => (positionOrder r =? 1)%Z
                                        && is_some (constructor_name r)) (rows df)))).
  { unfold constructor_wins; cbv zeta; rewrite map_map; simpl.
    set (wins := filter (fun r => (positionOrder r =? 1)%Z) (rows df)).
    rewrite (zsum_of_nat (fun k => length (filter (fun r => opt_str_eqb (constructor_name r) k)
                                             wins))).
    rewrite (sum_over_keys_length (fun r k => opt_str_eqb (constructor_name r) k));
      [| intros a k1 k2; apply opt_str_eqb_uniq | apply group_keys_str_NoDup].
    rewrite <- length_filter_andb; fold wins; do 2 f_equal.
    apply filter_ext_in; intros r Hr.
    rewrite (existsb_group_keys_str constructor_name wins r Hr); reflexivity. }
  destruct (sort_values_desc argsort Hf (fun p => Some (QZ (snd p))) (constructor_wins df))
    as [Hp _].
  set (s := sort_values argsort (fun p => Some (QZ (snd p))) false (constructor_wins df))
    in Hp.
  assert (Hnn : forall p, In p s -> (0 <= snd p)%Z).
  { intros [c n] Hin; apply (Permutation_in _ Hp), constructor_wins_In in Hin.
    simpl; lia. }
  assert (Hs : fold_right Z.add 0%Z (map snd s)
               = fold_right Z.add 0%Z (map snd (constructor_wins df)))
    by (apply zsum_perm, Permutation_map, Hp).
  unfold top_constructors, head; fold s.
  split; [exact Htot|split].
  - rewrite <- Htot, <- Hs.
    pose proof (f_equal (fun l => fold_right Z.add 0%Z (map snd l)) (firstn_skipn 10 s)) as E.
    cbv beta in E; rewrite map_app, zsum_app in E; rewrite <- E.
    assert (0 <= fold_right Z.add 0%Z (map snd (skipn 10 s)))%Z; [|lia].
    apply zsum_nonneg; intros x Hx; apply in_map_iff in Hx as [p [<- Hx]].
    apply Hnn; rewrite <- (firstn_skipn 10 s); apply in_or_app; right; exact Hx.
  - intros Hl; rewrite firstn_all2; [rewrite Hs; exact Htot|].
    rewrite (Permutation_length Hp); exact Hl.
Qed.

(** ** Driver Performance and Constructor Analysis charts *)

(** Lines 152-155 and 185-188: the performance charts have one point per year
    of the selected rows, in increasing year order; every year has an average
    position (no gap in the line). *)
Theorem performance_by_year_totals (xs : list Row) :
  map (fun p => fst (fst p)) (performance_by_year xs) = group_keys_Z (map year xs) /\
  StronglySorted Z.lt (map (fun p => fst (fst p)) (performance_by_year xs)) /\
  (forall y m s, In (y, m, s) (performance_by_year xs) -> exists q, m = Some q).
Proof.
  assert (Hk : map (fun p => fst (fst p)) (performance_by_year xs) = group_keys_Z (map year xs)).
  { unfold performance_by_year; rewrite map_map; apply map_id. }
  split; [exact Hk|split; [rewrite Hk; apply group_keys_Z_sorted|]].
  intros y m s Hin; unfold performance_by_year in Hin.
  apply in_map_iff in Hin as [y' [[= <- <- _] Hy]].
  apply group_keys_Z_In, in_map_iff in Hy as [r [Ey Hr]].
  assert (Hg : In r (rows_of_year y' xs)).
  { apply filter_In; split; [exact Hr|apply Z.eqb_eq; exact Ey]. }
  destruct (rows_of_year y' xs) as [|r0 g]; [destruct Hg|].
  simpl; eexists; reflexivity.
Qed.

(** ** Race Insight *)

(** Lines 93-133: the results table is ordered by finishing position, and the
    scatter plot has one point per listed row, in the same order.  The table
    is empty exactly when a selection is missing (no year option at the chosen
    index, or no race option of the selected year at the chosen index);
    otherwise it is a non-empty reordering of exactly the filtered rows of
    the selected race name in the selected year. *)
Theorem race_insight_results (argsort : list Q -> list nat) (Hf : argsort_spec argsort)
    (filtered : Table) (year_choice race_choice : nat) :
  exists race_df,
    race_insight_page argsort filtered year_choice race_choice =
      [ WTitle "Race Insight"; WSubheader "Results"; WRows race_df;
        WSubheader "Grid vs Final Position";
        WScatter (map (fun r => (grid r, positionOrder r, constructor_name r)) race_df) ] /\
    StronglySorted (fun r s => (positionOrder r <= positionOrder s)%Z) race_df /\
    match selectbox (years filtered) year_choice with
    | None => race_df = []
    | Some y =>
        match selectbox (race_options filtered y) race_choice with
        | None => race_df = []
        | Some s =>
            race_df <> [] /\
            Permutation race_df
              (filter (fun r => (year r =? y)%Z && String.eqb (race_name r) s) (rows filtered))
        end
    end.
Proof.
  assert (Hsort : forall keep : Row -> bool,
    let race_df := sort_values argsort (fun r => Some (QZ (positionOrder r))) true
                     (filter keep (rows filtered)) in
    StronglySorted (fun r s => (positionOrder r <= positionOrder s)%Z) race_df /\
    Permutation race_df (filter keep (rows filtered))).
  { intros keep; cbv zeta.
    destruct (sort_values_asc argsort Hf (fun r => Some (QZ (positionOrder r)))
                (filter keep (rows filtered))) as [Hp Hs].
    split; [|exact Hp].
    refine (StronglySorted_impl _ _ _ _ Hs); intros r s _ _ H; simpl in H.
    rewrite Zle_Qle; exact H. }
  unfold race_insight_page, years, race_options; cbv zeta.
  destruct (selectbox (group_keys_Z (map year (rows filtered))) year_choice) as [y|] eqn:Ey;
    cbv beta iota.
  - destruct (selectbox (group_keys_str (map (fun r => Some (race_name r))
               (filter (fun r => (year r =? y)%Z) (rows filtered)))) race_choice)
      as [s|] eqn:Er; cbv beta iota.
    + destruct (Hsort (fun r => (year r =? y)%Z && String.eqb (race_name r) s)) as [Hs Hp].
      eexists; split; [reflexivity|split; [exact Hs|]].
      split; [|exact Hp].
      apply nth_error_In, group_keys_str_In, in_map_iff in Er as [r [[= Es] Hr]].
      apply filter_In in Hr as [Hr Hyr].
      intros Hnil; rewrite Hnil in Hp; apply Permutation_nil in Hp.
      apply (in_nil (a := r)); rewrite <- Hp; apply filter_In; split; [exact Hr|].
      rewrite Hyr, Es; apply String.eqb_refl.
    + destruct (Hsort (fun r => (year r =? y)%Z && false)) as [Hs Hp].
      eexists; split; [reflexivity|split; [exact Hs|]].
      apply Permutation_nil, Permutation_sym; rewrite Hp, filter_all_false; [constructor|].
      intros r _; apply andb_false_r.
  - destruct (Hsort (fun r => false && false)) as [Hs Hp].
    eexists; split; [reflexivity|split; [exact Hs|]].
    apply Permutation_nil, Permutation_sym; rewrite Hp, filter_all_false; [constructor|].
    intros r _; reflexivity.
Qed.






(** ** Fastest Lap charts *)


(** ** Loading and filtering *)

(** Lines 13-18 with line 224: when the CSV has no [rank] column, [rank] is a
    copy of [positionOrder], so the rows the Fastest Lap page works on are the
    race winners ([positionOrder == 1]) of the filtered table. *)
Theorem fastest_laps_without_rank (raw : RawTable) (year_min year_max : Z)
    (selected_country : string) (selected_circuits : list string)
    (to_float : string -> option Q) :
  raw_has_rank raw = false ->
  let filtered := filtered_df (load_data raw) year_min year_max selected_country
                    selected_circuits in
  map fst (fastest_laps to_float filtered)
  = filter (fun r => (positionOrder r =? 1)%Z) (rows filtered).
Proof.
  intros Hr; cbv zeta; unfold fastest_laps; rewrite map_map; simpl; rewrite map_id.
  apply filter_ext_in; intros r Hin.
  rewrite filtered_df_rows in Hin; apply filter_In in Hin as [Hin _].
  unfold load_data in Hin; rewrite Hr in Hin; simpl in Hin.
  apply in_map_iff in Hin as [r0 [<- _]]; reflexivity.
Qed.

Lemma Subseq_filter_mono {A : Type} (f g : A -> bool) (l : list A) :
  (forall x, f x = true -> g x = true) -> Subseq (filter f l) (filter g l).
Proof.
  intros H; induction l as [|x l IH]; simpl; [constructor|].
  destruct (f x) eqn:Ef; [rewrite (H x Ef); constructor; exact IH|].
  destruct (g x); [constructor|]; exact IH.
Qed.

(** Lines 53-62: narrowing the year range or selecting fewer circuits keeps
    a sub-list of the rows kept before, in the same order. *)
Theorem filtered_df_monotone (df : Table) (a b a' b' : Z) (selected_country : string)
    (cs cs' : list string) :
  (a <= a')%Z -> (b' <= b)%Z -> (forall x, In x cs' -> In x cs) ->
  Subseq (rows (filtered_df df a' b' selected_country cs'))
         (rows (filtered_df df a b selected_country cs)).
Proof.
  intros Ha Hb Hcs; rewrite !filtered_df_rows; apply Subseq_filter_mono.
  intros r H; unfold filter_keep in *.
  apply andb_true_iff in H as [H Hci]; apply andb_true_iff in H as [Hy Hco].
  rewrite Hco; unfold year_mask in *.
  apply andb_true_iff in Hy as [Hy1 Hy2]; apply Z.leb_le in Hy1, Hy2.
  assert (Hy : ((a <=? year r)%Z && (year r <=? b)%Z) = true)
    by (apply andb_true_iff; split; apply Z.leb_le; lia).
  rewrite Hy; simpl; unfold circuit_keep in *.
  destruct (existsb (String.eqb "All Circuits") cs) eqn:E; [reflexivity|].
  destruct (existsb (String.eqb "All Circuits") cs') eqn:E'.
  { apply existsb_eqb_In, Hcs, existsb_eqb_In in E'; congruence. }
  unfold circuit_mask in *; destruct (circuit_name r) as [c|]; [|exact Hci].
  apply existsb_exists in Hci as [x [Hx Ex]]; apply existsb_exists; exists x.
  split; [apply Hcs; exact Hx|exact Ex].
Qed.

(** ** Drill-down pages without rows *)

(** Lines 139-166 and 172-214: the driver and constructor lists come from the
    whole table.  When the filtered table has no row of the selected driver
    (constructor), or no name can be selected, the page shows zero metrics
    and empty charts and tables, and raises nothing. *)
Theorem drilldown_without_rows (argsort : list Q -> list nat) (df filtered : Table)
    (choice : nat) :
  ((forall r, In r (rows filtered) ->
      match selectbox (drivers df) choice with
      | Some d => driver_name r <> Some d | None => True end) ->
   driver_page df filtered choice =
     [ WTitle "Driver Performance"; WMetric "Races Participated" (MCount 0);
       WMetric "Wins" (MCount 0); WMetric "Podiums" (MCount 0);
       WSubheader "Performance Over Years"; WYearSeries [];
       WSubheader "Points Accumulation"; WYearSeries [] ]) /\
  ((forall r, In r (rows filtered) ->
      match selectbox (constructors df) choice with
      | Some c => constructor_name r <> Some c | None => True end) ->
   constructor_page argsort df filtered choice =
     [ WTitle "Constructor Analysis"; WMetric "Races Participated" (MCount 0);
       WMetric "Wins" (MCount 0); WMetric "Podiums" (MCount 0);
       WSubheader "Performance Over Years"; WYearSeries []; WYearSeries [];
       WSubheader "Top Drivers"; WStats [] ]).
Proof.
  split; intros H.
  - unfold driver_page.
    assert (E : entity_rows driver_name (selectbox (drivers df) choice) filtered = []).
    { unfold entity_rows; apply filter_all_false; intros r Hr; specialize (H r Hr).
      destruct (selectbox (drivers df) choice) as [d|]; [|reflexivity].
      apply not_true_iff_false; intros Hd; apply opt_str_eqb_true in Hd; exact (H Hd). }
    change (group_keys_str (map driver_name (rows df))) with (drivers df); rewrite E.
    reflexivity.
  - unfold constructor_page.
    assert (E : entity_rows constructor_name (selectbox (constructors df) choice) filtered = []).
    { unfold entity_rows; apply filter_all_false; intros r Hr; specialize (H r Hr).
      destruct (selectbox (constructors df) choice) as [d|]; [|reflexivity].
      apply not_true_iff_false; intros Hd; apply opt_str_eqb_true in Hd; exact (H Hd). }
    change (group_keys_str (map constructor_name (rows df))) with (constructors df); rewrite E.
    unfold top_drivers, sort_values; cbn -[take_rows]; rewrite take_rows_nil; reflexivity.
Qed.

(** * Witnesses of the further properties *)

(** The example table's bar chart shows its two wins. *)
Lemma constructor_wins_total_witness :
  (fold_right Z.add 0%Z (map snd (top_constructors insertion_argsort example_table))
   <= Z.of_nat (length (filter (fun r => (positionOrder r =? 1)%Z
                                       && is_some (constructor_name r)) (rows example_table))))%Z.
Proof.
  exact (proj1 (proj2 (constructor_wins_total insertion_argsort insertion_argsort_spec
                         example_table))).
Defined.

(** The 2020 race of the example table, listed by finishing position. *)
Lemma race_insight_results_witness :
  exists race_df,
    In (WRows race_df) (race_insight_page insertion_argsort example_table 0 0) /\
    StronglySorted (fun r s => (positionOrder r <= positionOrder s)%Z) race_df.
Proof.
  destruct (race_insight_results insertion_argsort insertion_argsort_spec example_table 0 0)
    as [race_df [E [S _]]].
  exists race_df; rewrite E; split; [right; right; left; reflexivity|exact S].
Defined.




Lemma fastest_laps_without_rank_witness :
  map fst (fastest_laps py_float
             (filtered_df (load_data (mkRawTable false example_table)) 2020 2021
                "All Countries" ["All Circuits"]))
  = filter (fun r => (positionOrder r =? 1)%Z)
      (rows (filtered_df (load_data (mkRawTable false example_table)) 2020 2021
               "All Countries" ["All Circuits"])).
Proof.
  exact (fastest_laps_without_rank (mkRawTable false example_table) 2020 2021
           "All Countries" ["All Circuits"] py_float eq_refl).
Defined.

(** The 2021 Monza rows are among the 2020-2021 rows of all circuits. *)
Lemma filtered_df_monotone_witness :
  Subseq (rows (filtered_df example_table 2021 2021 "All Countries" ["Monza"]))
         (rows (filtered_df example_table 2020 2021 "All Countries" ["All Circuits"; "Monza"])).
Proof.
  apply (filtered_df_monotone example_table 2020 2021 2021 2021 "All Countries"
           ["All Circuits"; "Monza"] ["Monza"]); [lia|lia|].
  intros x [<-|[]]; right; left; reflexivity.
Defined.
